(** * Storage-room manager: the App component's handlers and derived views

    A shallow embedding of [App] (handlers [handleAddRoom], [handleUpdateTemp],
    [handleUpdateStock], [handleToggleFermentation], the memoised views
    [allMaterials] and [filteredRooms], the [stats] object) and of the entity
    types ([UserRole], [Room], [LogEntry], [AppState], [INITIAL_MATERIALS]).

    Conventions of the embedding.
    - A JS [number] that the handlers compute with (quantities, temperatures,
      millisecond timestamps) is an integer [Z]; fractional values, NaN and
      infinities are outside the model.  Sums and decimal renderings agree
      with the code on the safe integers ([safe_integer]); the statements
      about a written value or its text assume them.
    - [Record<string, number>] is a [gmap string Z]: keys are unique, a key
      bound to [0] is a key.  The enumeration order of [Object.keys] is the
      order of [map_to_list]; no statement below depends on it.  Properties
      inherited from [Object.prototype] are outside the model: a statement
      about [inventory[material]] assumes that the material is none of
      [Object_prototype_properties].
    - A JS string is a [string]; template literals are concatenations and
      [${n}] of a number is its decimal rendering [pretty n].
    - An [async] handler is a computation of type [Async unit]: the trace of
      the requests it sends and of the browser effects it performs, and
      whether its promise is fulfilled.  The answer of the store to each
      request, the clock readings and the answer to [prompt] are inputs. *)

From stdpp Require Import gmap strings list fin_maps pretty.

Open Scope string_scope.
Open Scope list_scope.
Open Scope Z_scope.

(** ** Entity model *)

Inductive UserRole := ADMIN | AUDITOR | GUEST.

#[global] Instance UserRole_eq_dec : EqDecision UserRole.
Proof. solve_decision. Defined.

(** The string value of each member of the enum. *)
Definition UserRole_value (r : UserRole) : string :=
  match r with
  | ADMIN => "Admin"
  | AUDITOR => "Auditor"
  | GUEST => "Guest"
  end.

Record Room := mkRoom {
  room_id : string;
  name : string;
  temperature : Z;
  inventory : gmap string Z;
  fermentationStart : option Z
}.

(** The argument of [StorageService.addLog]: a [LogEntry] without its id. *)
Record LogFields := mkLogFields {
  timestamp : Z;
  userRole : UserRole;
  roomName : string;
  action : string;
  details : string
}.

Record LogEntry := mkLogEntry {
  log_id : string;
  log_fields : LogFields
}.

Record AppState := mkAppState {
  rooms : list Room;
  logs : list LogEntry;
  currentUser : UserRole
}.

Definition INITIAL_MATERIALS : list string :=
  ["تفاح"; "سكر"; "خميرة"; "عنب"; "شعير"; "ماء"; "خشب"].

(** ** Requests, effects and the [Async] computations of the handlers *)

(** The partial object passed to [StorageService.updateRoomFields]: a field
    that is [None] is not mentioned in the object literal. *)
Record RoomPatch := mkRoomPatch {
  patch_temperature : option Z;
  patch_fermentationStart : option (option Z)
}.

Inductive Request :=
| AddRoomReq (room_name : string)
| UpdateRoomFieldsReq (id : string) (fields : RoomPatch)
| UpdateStockReq (id material : string) (newQty : Z)
| AddLogReq (entry : LogFields).

(** What a handler does that the outside can see.  [Storage rq accepted] is
    the call of a [StorageService] method together with the answer it got:
    the promise was fulfilled ([true]) or rejected ([false]). *)
Inductive Effect :=
| Storage (rq : Request) (accepted : bool)
| ConsoleError (msg : string)
| Alert (msg : string).

(** Trace so far, and [Some] result when the computation has not thrown. *)
Definition Async (A : Type) : Type := (list Effect * option A)%type.

Definition ret {A} (x : A) : Async A := ([], Some x).

Definition bind {A B} (m : Async A) (k : A → Async B) : Async B :=
  match m with
  | (t, None) => (t, None)
  | (t, Some a) => let '(t', r) := k a in (t ++ t', r)
  end.

(** Sequencing of two statements of an [async] body. *)
Notation "m >>> k" := (bind m (λ _, k))
  (at level 62, right associativity).

(** [await StorageService.method(...)]: the call is recorded; a rejected
    promise throws at the [await]. *)
Definition await (rq : Request) (accepted : bool) : Async unit :=
  ([Storage rq accepted], if accepted then Some tt else None).

Definition emit (e : Effect) : Async unit := ([e], Some tt).

(** [try { body } catch (error) { handler }]. *)
Definition try_catch {A} (body handler : Async A) : Async A :=
  match body with
  | (t, None) => let '(t', r) := handler in (t ++ t', r)
  | (t, Some a) => (t, Some a)
  end.

(** The call of an [async] function whose promise is dropped: what it does is
    done, its rejection reaches nobody. *)
Definition unawaited (m : Async unit) : Async unit := (m.1, Some tt).

Definition trace {A} (m : Async A) : list Effect := m.1.

(** What the environment answers during one handler run. *)
Record Env := mkEnv {
  write_ok : bool;            (* the store accepts the room write *)
  log_ok : bool;              (* the store accepts the log append *)
  now : Z;                    (* [Date.now()] read by the handler body *)
  log_now : Z                 (* [Date.now()] read inside [addLog] *)
}.

(** JS truthiness of the values the handlers test. *)
Definition truthy_string (s : option string) : bool :=
  match s with
  | None => false
  | Some s => negb (String.eqb s "")
  end.

Definition truthy_number (n : option Z) : bool :=
  match n with
  | None => false
  | Some n => negb (n =? 0)
  end.

(** [rooms.find(r => r.id === id)]. *)
Definition find_room (rs : list Room) (id : string) : option Room :=
  List.find (λ r, String.eqb (room_id r) id) rs.

(** ** The handlers *)

Definition addLog (st : AppState) (e : Env)
    (act rname det : string) : Async unit :=
  await (AddLogReq {| timestamp := log_now e;
                      userRole := currentUser st;
                      roomName := rname;
                      action := act;
                      details := det |}) (log_ok e).

Definition handleAddRoom (st : AppState) (e : Env)
    (answer : option string) : Async unit :=
  match answer with
  | Some nm =>
      if truthy_string answer then
        try_catch
          (await (AddRoomReq nm) (write_ok e) >>>
           unawaited (addLog st e "إضافة غرفة" nm "تم إنشاء غرفة جديدة"))
          (emit (ConsoleError "Error adding room:") >>>
           emit (Alert "حدث خطأ أثناء إضافة الغرفة"))
      else ret tt
  | None => ret tt
  end.

Definition handleUpdateTemp (st : AppState) (e : Env)
    (id : string) (temp : Z) : Async unit :=
  match find_room (rooms st) id with
  | None => ret tt
  | Some room =>
      await (UpdateRoomFieldsReq id
               {| patch_temperature := Some temp;
                  patch_fermentationStart := None |}) (write_ok e) >>>
      unawaited (addLog st e "تعديل حرارة" (name room)
                   ("من " +:+ pretty (temperature room) +:+ "° إلى "
                    +:+ pretty temp +:+ "°"))
  end.

(** [room.inventory[material] || 0]. *)
Definition oldQty_of (room : Room) (material : string) : Z :=
  let q := inventory room !! material in
  if truthy_number q then default 0 q else 0.

Definition handleUpdateStock (st : AppState) (e : Env)
    (id material : string) (amount : Z) : Async unit :=
  match find_room (rooms st) id with
  | None => ret tt
  | Some room =>
      let oldQty := oldQty_of room material in
      let newQty := oldQty + amount in
      await (UpdateStockReq id material newQty) (write_ok e) >>>
      let actionType :=
        if 0 <? amount then "إدخال مخزون" else "إخراج مخزون" in
      unawaited (addLog st e actionType (name room)
                   (material +:+ ": " +:+ pretty oldQty +:+ " -> "
                    +:+ pretty newQty))
  end.

Definition handleToggleFermentation (st : AppState) (e : Env)
    (id : string) : Async unit :=
  match find_room (rooms st) id with
  | None => ret tt
  | Some room =>
      let isStarting := negb (truthy_number (fermentationStart room)) in
      await (UpdateRoomFieldsReq id
               {| patch_temperature := None;
                  patch_fermentationStart :=
                    Some (if isStarting then Some (now e) else None) |})
            (write_ok e) >>>
      let act := if isStarting then "بدء تخمير" else "إيقاف تخمير" in
      unawaited (addLog st e act (name room)
                   (if isStarting then "بدأت العملية" else "تم إيقاف العملية"))
  end.

(** The requests of a trace, split the way the mutation service speaks of
    them: the room writes, and the log appends. *)
Definition is_log_request (eff : Effect) : bool :=
  match eff with
  | Storage (AddLogReq _) _ => true
  | _ => false
  end.

Definition writes_of (t : list Effect) : list Request :=
  omap (λ eff, match eff with
               | Storage (AddLogReq _) _ => None
               | Storage rq _ => Some rq
               | _ => None
               end) t.

Definition log_entries_of (t : list Effect) : list LogFields :=
  omap (λ eff, match eff with
               | Storage (AddLogReq entry) _ => Some entry
               | _ => None
               end) t.

Definition storage_calls (t : list Effect) : list Request :=
  omap (λ eff, match eff with Storage rq _ => Some rq | _ => None end) t.

(** What the user is told: the [alert] boxes of a trace. *)
Definition alerts_of (t : list Effect) : list string :=
  omap (λ eff, match eff with Alert msg => Some msg | _ => None end) t.

(** The appends of a trace that the store accepted. *)
Definition accepted_log_entries (t : list Effect) : list LogFields :=
  omap (λ eff, match eff with
               | Storage (AddLogReq entry) true => Some entry
               | _ => None
               end) t.

(** ** The role gate of the rendered page *)

(** [{currentUser === UserRole.ADMIN && (<button onClick={handleAddRoom}>)}]:
    the button exists in the page for this state, or it does not. *)
Definition addRoomButton_rendered (st : AppState) : bool :=
  bool_decide (currentUser st = ADMIN).

(** A click on the place of the button: the handler runs when the button is
    there, and nothing at all happens when it is not. *)
Definition clickAddRoom (st : AppState) (e : Env)
    (answer : option string) : Async unit :=
  if addRoomButton_rendered st then handleAddRoom st e answer else ret tt.

(** ** Derived views *)

Definition Object_keys (inv : gmap string Z) : list string :=
  (map_to_list inv).*1.

(** [Set.prototype.add] on a set kept in insertion order. *)
Definition Set_add (used : list string) (k : string) : list string :=
  if bool_decide (k ∈ used) then used else used ++ [k].

Definition allMaterials (rs : list Room) : list string :=
  let used :=
    fold_left (λ used r, fold_left Set_add (Object_keys (inventory r)) used)
              rs [] in
  fold_left Set_add INITIAL_MATERIALS used.

(** [s.startsWith(q)] and [s.includes(q)] on the characters of the model. *)
Fixpoint startsWith (s q : string) {struct q} : bool :=
  match q, s with
  | EmptyString, _ => true
  | String _ _, EmptyString => false
  | String c q', String d s' => Ascii.eqb c d && startsWith s' q'
  end.

Fixpoint includes (s q : string) : bool :=
  startsWith s q ||
  match s with
  | EmptyString => false
  | String _ s' => includes s' q
  end.

Record Stats := mkStats {
  totalRooms : nat;
  activeFermentation : nat;
  totalItems : nat
}.

Definition stats (rs : list Room) : Stats :=
  {| totalRooms := length rs;
     activeFermentation :=
       length (List.filter
                 (λ r, bool_decide (fermentationStart r ≠ None)) rs);
     totalItems :=
       fold_left (λ acc r, (acc + length (Object_keys (inventory r)))%nat)
                 rs 0%nat |}.

Section Search.

(** [String.prototype.toLowerCase] is the host's Unicode case mapping; the
    view is embedded over any such function. *)
Variable toLowerCase : string → string.

Definition room_matches (lowerQ : string) (r : Room) : bool :=
  includes (toLowerCase (name r)) lowerQ ||
  existsb (λ k, includes (toLowerCase k) lowerQ) (Object_keys (inventory r)).

Definition filteredRooms (rs : list Room) (searchQuery : string)
    : list Room :=
  if negb (truthy_string (Some searchQuery)) then rs
  else
    let lowerQ := toLowerCase searchQuery in
    List.filter (room_matches lowerQ) rs.

(** The wording of the specification: [q] occurs in [s] when case is
    ignored, and a room answers a query through its name or through one of
    the material keys of its inventory. *)
Definition ci_substring (q s : string) : Prop :=
  ∃ pre post, toLowerCase s = pre +:+ toLowerCase q +:+ post.

Definition answers_query (q : string) (r : Room) : Prop :=
  ci_substring q (name r) ∨
  ∃ k, is_Some (inventory r !! k) ∧ ci_substring q k.

End Search.

(** The room without one key of its inventory. *)
Definition without_material (k : string) (r : Room) : Room :=
  {| room_id := room_id r;
     name := name r;
     temperature := temperature r;
     inventory := delete k (inventory r);
     fermentationStart := fermentationStart r |}.

(** A case mapping to run the view on: the letters A to Z are lowered, every
    other character is kept (Arabic script has no case). *)
Definition ascii_lower (c : Ascii.ascii) : Ascii.ascii :=
  let n := Ascii.N_of_ascii c in
  if ((65 <=? n) && (n <=? 90))%N then Ascii.ascii_of_N (n + 32) else c.

Fixpoint ascii_toLowerCase (s : string) : string :=
  match s with
  | EmptyString => EmptyString
  | String c s' => String (ascii_lower c) (ascii_toLowerCase s')
  end.

(** ** The remote store and the mirror *)

Record Remote := mkRemote {
  remote_rooms : list Room;
  remote_logs : list LogEntry
}.

(** What the store makes up when it creates a document. *)
Record Fresh := mkFresh {
  fresh_room_id : string;
  fresh_temperature : Z;
  fresh_log_id : string
}.

Definition apply_patch (p : RoomPatch) (r : Room) : Room :=
  {| room_id := room_id r;
     name := name r;
     temperature := default (temperature r) (patch_temperature p);
     inventory := inventory r;
     fermentationStart :=
       default (fermentationStart r) (patch_fermentationStart p) |}.

Definition set_stock (material : string) (q : Z) (r : Room) : Room :=
  {| room_id := room_id r;
     name := name r;
     temperature := temperature r;
     inventory := <[material := q]> (inventory r);
     fermentationStart := fermentationStart r |}.

Definition update_room (id : string) (f : Room → Room)
    (rs : list Room) : list Room :=
  (λ r, if String.eqb (room_id r) id then f r else r) <$> rs.

(** Modelled from the spec: [services/storage.ts], which defines
    [StorageService], is not among the sources.  The external interface of
    the specification gives its methods: [addRoom(name)] creates a Room with
    a generated id, zero inventory and null fermentationStart (the
    temperature of a new room is not stated and is taken from [Fresh]);
    [updateRoomFields(id, partialFields)] sets the given fields of the room
    [id]; [updateStock(id, material, newQuantity)] sets the quantity of one
    material of the room [id]; [addLog(entry)] stores the entry under a new
    id. *)
Definition StorageService (f : Fresh) (rq : Request) (db : Remote) : Remote :=
  match rq with
  | AddRoomReq nm =>
      {| remote_rooms :=
           remote_rooms db ++
           [ {| room_id := fresh_room_id f;
                name := nm;
                temperature := fresh_temperature f;
                inventory := ∅;
                fermentationStart := None |} ];
         remote_logs := remote_logs db |}
  | UpdateRoomFieldsReq id p =>
      {| remote_rooms := update_room id (apply_patch p) (remote_rooms db);
         remote_logs := remote_logs db |}
  | UpdateStockReq id material q =>
      {| remote_rooms := update_room id (set_stock material q) (remote_rooms db);
         remote_logs := remote_logs db |}
  | AddLogReq entry =>
      {| remote_rooms := remote_rooms db;
         remote_logs :=
           remote_logs db ++
           [ {| log_id := fresh_log_id f; log_fields := entry |} ] |}
  end.

(** The store executes the calls it accepted, in the order of the trace; a
    rejected call leaves it as it was. *)
Definition commit (f : Fresh) (t : list Effect) (db : Remote) : Remote :=
  fold_left (λ db eff, match eff with
                       | Storage rq true => StorageService f rq db
                       | _ => db
                       end) t db.

(** The page and the store together.  [mirror] is the React state of [App];
    it changes only when a subscription delivers a snapshot ([setRooms],
    [setLogs]) or the role switch is used ([setCurrentUser]). *)
Record World := mkWorld {
  mirror : AppState;
  remote : Remote
}.

Inductive Action :=
| ClickAddRoom (answer : option string)
| UpdateTemp (id : string) (temp : Z)
| UpdateStock (id material : string) (amount : Z)
| ToggleFermentation (id : string)
| SetCurrentUser (role : UserRole)
| PushRooms
| PushLogs.

Record Event := mkEvent {
  ev_action : Action;
  ev_env : Env;
  ev_fresh : Fresh
}.

Definition run_handler (st : AppState) (e : Env) (a : Action) : Async unit :=
  match a with
  | ClickAddRoom answer => clickAddRoom st e answer
  | UpdateTemp id temp => handleUpdateTemp st e id temp
  | UpdateStock id material amount => handleUpdateStock st e id material amount
  | ToggleFermentation id => handleToggleFermentation st e id
  | SetCurrentUser _ | PushRooms | PushLogs => ret tt
  end.

Definition step (w : World) (ev : Event) : World :=
  match ev_action ev with
  | SetCurrentUser role =>
      {| mirror := {| rooms := rooms (mirror w);
                      logs := logs (mirror w);
                      currentUser := role |};
         remote := remote w |}
  | PushRooms =>
      {| mirror := {| rooms := remote_rooms (remote w);
                      logs := logs (mirror w);
                      currentUser := currentUser (mirror w) |};
         remote := remote w |}
  | PushLogs =>
      {| mirror := {| rooms := rooms (mirror w);
                      logs := remote_logs (remote w);
                      currentUser := currentUser (mirror w) |};
         remote := remote w |}
  | a =>
      {| mirror := mirror w;
         remote :=
           commit (ev_fresh ev)
                  (trace (run_handler (mirror w) (ev_env ev) a)) (remote w) |}
  end.

Definition run (w : World) (evs : list Event) : World := fold_left step evs w.

(** Everything the handlers did along a run. *)
Fixpoint run_trace (w : World) (evs : list Event) : list Effect :=
  match evs with
  | [] => []
  | ev :: evs' =>
      trace (run_handler (mirror w) (ev_env ev) (ev_action ev)) ++
      run_trace (step w ev) evs'
  end.

(** ** Successful mutation calls *)

(** The input of a mutation is valid: the button is there and the name is
    not empty, or the target id is an id of the mirror. *)
Definition valid_input (st : AppState) (a : Action) : bool :=
  match a with
  | ClickAddRoom answer =>
      bool_decide (currentUser st = ADMIN) && truthy_string answer
  | UpdateTemp id _ | UpdateStock id _ _ | ToggleFermentation id =>
      bool_decide (id ∈ room_id <$> rooms st)
  | SetCurrentUser _ | PushRooms | PushLogs => false
  end.

(** The mutation went through: valid input and a write the store accepted. *)
Definition write_succeeds (st : AppState) (ev : Event) : bool :=
  valid_input st (ev_action ev) && write_ok (ev_env ev).

(** The transaction went through: the write and the append were accepted. *)
Definition call_succeeds (st : AppState) (ev : Event) : bool :=
  write_succeeds st ev && log_ok (ev_env ev).

Fixpoint count_along (P : AppState → Event → bool)
    (w : World) (evs : list Event) : nat :=
  match evs with
  | [] => 0%nat
  | ev :: evs' =>
      ((if P (mirror w) ev then 1 else 0) + count_along P (step w ev) evs')%nat
  end.

(** ** The component: its hooks, its mount effect and its page *)

(** The settled value of a handler's promise: [None] when it is rejected. *)
Definition outcome {A} (m : Async A) : option A := m.2.

(** The keys collected from the rooms, before the seed list is added: the
    first [forEach] of [allMaterials]. *)
Definition used_keys (rs : list Room) : list string :=
  fold_left (λ used r, fold_left Set_add (Object_keys (inventory r)) used)
            rs [].

(** [activeTab]: ['dashboard' | 'logs']. *)
Inductive Tab := TabDashboard | TabLogs.

(** The [useState] cells of [App]; [hooks_state] holds [rooms], [logs] and
    [currentUser]. *)
Record Hooks := mkHooks {
  hooks_state : AppState;
  activeTab : Tab;
  searchQuery : string;
  configError : bool
}.

Definition initial_hooks : Hooks :=
  {| hooks_state := {| rooms := []; logs := []; currentUser := ADMIN |};
     activeTab := TabDashboard;
     searchQuery := "";
     configError := false |}.

(** The calls of the mount effect and of the cleanup it returns. *)
Inductive MountCall := InitializeDB | SubscribeRooms | SubscribeLogs.

Inductive CleanupCall := UnsubRooms | UnsubLogs.

Record Mounted := mkMounted {
  mount_calls : list MountCall;
  mount_hooks : Hooks;
  mount_cleanup : list CleanupCall
}.

(** [useEffect(() => {...}, [])], given what [isFirebaseConfigured()]
    answers.  The early return hands React no cleanup. *)
Definition useEffect_mount (isFirebaseConfigured : bool) (h : Hooks)
    : Mounted :=
  if negb isFirebaseConfigured then
    {| mount_calls := [];
       mount_hooks := {| hooks_state := hooks_state h;
                         activeTab := activeTab h;
                         searchQuery := searchQuery h;
                         configError := true |};
       mount_cleanup := [] |}
  else
    {| mount_calls := [InitializeDB; SubscribeRooms; SubscribeLogs];
       mount_hooks := h;
       mount_cleanup := [UnsubRooms; UnsubLogs] |}.

(** The subscription that a mount call opens and that a cleanup call
    closes. *)
Inductive Channel := RoomsChannel | LogsChannel.

Definition opened (c : MountCall) : option Channel :=
  match c with
  | InitializeDB => None
  | SubscribeRooms => Some RoomsChannel
  | SubscribeLogs => Some LogsChannel
  end.

Definition closed (c : CleanupCall) : Channel :=
  match c with
  | UnsubRooms => RoomsChannel
  | UnsubLogs => LogsChannel
  end.

(** [Object.values(UserRole)]. *)
Definition UserRole_values : list UserRole := [ADMIN; AUDITOR; GUEST].

(** The page as a tree of what is shown; class names, icons and fixed
    texts are left out, and so are the three callbacks handed to each
    [RoomCard], which are the handlers above. *)
Record RoomCardProps := mkRoomCardProps {
  card_key : string;
  card_room : Room;
  card_userRole : UserRole;
  card_allMaterials : list string
}.

Record DashboardView := mkDashboardView {
  search_value : string;
  add_button : bool;
  cards : list RoomCardProps;
  no_results : bool
}.

Inductive TabView :=
| DashboardTab (d : DashboardView)
| LogsTab (table : list LogEntry).

Record MainView := mkMainView {
  role_buttons : list (UserRole * bool);   (* the role, and is it highlighted *)
  stats_bar : Stats;
  tab_view : TabView
}.

Inductive Page :=
| ConfigErrorPage
| MainPage (m : MainView).

Section Render.

Variable toLowerCase : string → string.

Definition render_dashboard (h : Hooks) : DashboardView :=
  let st := hooks_state h in
  let shown := filteredRooms toLowerCase (rooms st) (searchQuery h) in
  {| search_value := searchQuery h;
     add_button := bool_decide (currentUser st = ADMIN);
     cards :=
       (λ room, {| card_key := room_id room;
                   card_room := room;
                   card_userRole := currentUser st;
                   card_allMaterials := allMaterials (rooms st) |}) <$> shown;
     no_results := bool_decide (length shown = 0%nat) |}.

(** The value [App] returns. *)
Definition App_render (h : Hooks) : Page :=
  if configError h then ConfigErrorPage
  else
    let st := hooks_state h in
    MainPage
      {| role_buttons :=
           (λ role, (role, bool_decide (currentUser st = role)))
             <$> UserRole_values;
         stats_bar := stats (rooms st);
         tab_view :=
           match activeTab h with
           | TabDashboard => DashboardTab (render_dashboard h)
           | TabLogs => LogsTab (logs st)
           end |}.

End Render.

(** The Add room button is somewhere in the page. *)
Definition page_has_add_button (p : Page) : bool :=
  match p with
  | MainPage m =>
      match tab_view m with
      | DashboardTab d => add_button d
      | LogsTab _ => false
      end
  | ConfigErrorPage => false
  end.

(** What changes the hooks after the mount: the two subscription callbacks
    ([setRooms(data)], [setLogs(data)]), a click on a role button, a click
    on a tab, and typing in the search box.  [setConfigError] has no caller
    but the mount effect. *)
Inductive HookEvent :=
| SnapshotRooms (data : list Room)
| SnapshotLogs (data : list LogEntry)
| ClickRole (role : UserRole)
| ClickTab (tab : Tab)
| TypeQuery (value : string).

Definition hooks_step (h : Hooks) (ev : HookEvent) : Hooks :=
  let st := hooks_state h in
  match ev with
  | SnapshotRooms data =>
      {| hooks_state := {| rooms := data; logs := logs st;
                           currentUser := currentUser st |};
         activeTab := activeTab h; searchQuery := searchQuery h;
         configError := configError h |}
  | SnapshotLogs data =>
      {| hooks_state := {| rooms := rooms st; logs := data;
                           currentUser := currentUser st |};
         activeTab := activeTab h; searchQuery := searchQuery h;
         configError := configError h |}
  | ClickRole role =>
      {| hooks_state := {| rooms := rooms st; logs := logs st;
                           currentUser := role |};
         activeTab := activeTab h; searchQuery := searchQuery h;
         configError := configError h |}
  | ClickTab tab =>
      {| hooks_state := st; activeTab := tab; searchQuery := searchQuery h;
         configError := configError h |}
  | TypeQuery value =>
      {| hooks_state := st; activeTab := activeTab h; searchQuery := value;
         configError := configError h |}
  end.

(** The same state seen under another role. *)
Definition as_role (role : UserRole) (st : AppState) : AppState :=
  {| rooms := rooms st; logs := logs st; currentUser := role |}.

(** An entry without the role that wrote it. *)
Definition entry_body (en : LogFields) : Z * string * string * string :=
  (timestamp en, roomName en, action en, details en).

(** ** Where the integers are the numbers of the code *)

(** The property names every object inherits from [Object.prototype]: read
    through [room.inventory[material]] they give a function or the
    prototype, not a quantity, when the inventory has no such key of its
    own. *)
Definition Object_prototype_properties : list string :=
  ["constructor"; "__defineGetter__"; "__defineSetter__"; "hasOwnProperty";
   "__lookupGetter__"; "__lookupSetter__"; "isPrototypeOf";
   "propertyIsEnumerable"; "toString"; "valueOf"; "__proto__";
   "toLocaleString"].

(** [Number.isSafeInteger]: the integers a [number] holds exactly.  A sum
    of two of them that is one of them is computed exactly, and [${n}] of
    one of them is its decimal notation. *)
Definition safe_integer (n : Z) : Prop := - 2 ^ 53 < n < 2 ^ 53.

(** The Adjust stock calls on which the model computes what the code
    computes: the material is no inherited property name, and the amount,
    the old quantity of the room the lookup returns and their sum are safe
    integers. *)
Definition faithful_stock_input (st : AppState) (id material : string)
    (amount : Z) : Prop :=
  (material ∉ Object_prototype_properties) ∧
  safe_integer amount ∧
  (∀ room, find_room (rooms st) id = Some room →
           safe_integer (default 0 (inventory room !! material)) ∧
           safe_integer (default 0 (inventory room !! material) + amount)).

(** The Update temperature calls on which the rendering of the model is the
    rendering of the code: the old and the new temperature are safe
    integers. *)
Definition faithful_temp_input (st : AppState) (id : string) (temp : Z)
    : Prop :=
  safe_integer temp ∧
  (∀ room, find_room (rooms st) id = Some room →
           safe_integer (temperature room)).

(** ** Sample data *)

Definition sample_env : Env :=
  {| write_ok := true; log_ok := true; now := 1700000000000;
     log_now := 1700000000001 |}.

Definition failing_env : Env :=
  {| write_ok := false; log_ok := true; now := 1700000000000;
     log_now := 1700000000001 |}.

Definition log_refused_env : Env :=
  {| write_ok := true; log_ok := false; now := 1700000000000;
     log_now := 1700000000001 |}.

Definition sample_fresh : Fresh :=
  {| fresh_room_id := "doc-9"; fresh_temperature := 20;
     fresh_log_id := "log-9" |}.

Definition room_R1 : Room :=
  {| room_id := "r1"; name := "R1"; temperature := 18;
     inventory := {[ "سكر" := 5 ]}; fermentationStart := None |}.

Definition room_R2 : Room :=
  {| room_id := "r2"; name := "Cellar"; temperature := 12;
     inventory := {[ "Malt" := 0 ]}; fermentationStart := Some 1699999990000 |}.

Definition room_R3 : Room :=
  {| room_id := "r3"; name := "Attic"; temperature := 25;
     inventory := ∅; fermentationStart := Some 0 |}.

Definition sample_rooms : list Room := [room_R1; room_R2; room_R3].

Definition sample_state (role : UserRole) : AppState :=
  {| rooms := sample_rooms; logs := []; currentUser := role |}.

Definition sample_world (role : UserRole) : World :=
  {| mirror := sample_state role;
     remote := {| remote_rooms := sample_rooms; remote_logs := [] |} |}.

Definition sample_event (a : Action) : Event :=
  {| ev_action := a; ev_env := sample_env; ev_fresh := sample_fresh |}.

Definition sample_hooks (role : UserRole) (q : string) : Hooks :=
  {| hooks_state := sample_state role; activeTab := TabDashboard;
     searchQuery := q; configError := false |}.

(** ** The log entries and patches the handlers build *)

Definition stock_entry (st : AppState) (e : Env) (room : Room)
    (material : string) (amount : Z) : LogFields :=
  {| timestamp := log_now e;
     userRole := currentUser st;
     roomName := name room;
     action := if 0 <? amount then "إدخال مخزون" else "إخراج مخزون";
     details := material +:+ ": " +:+ pretty (oldQty_of room material)
                +:+ " -> " +:+ pretty (oldQty_of room material + amount) |}.

Definition temp_entry (st : AppState) (e : Env) (room : Room)
    (temp : Z) : LogFields :=
  {| timestamp := log_now e;
     userRole := currentUser st;
     roomName := name room;
     action := "تعديل حرارة";
     details := "من " +:+ pretty (temperature room) +:+ "° إلى "
                +:+ pretty temp +:+ "°" |}.

Definition is_starting (room : Room) : bool :=
  negb (truthy_number (fermentationStart room)).

Definition toggle_patch (e : Env) (room : Room) : RoomPatch :=
  {| patch_temperature := None;
     patch_fermentationStart :=
       Some (if is_starting room then Some (now e) else None) |}.

Definition toggle_entry (st : AppState) (e : Env) (room : Room) : LogFields :=
  {| timestamp := log_now e;
     userRole := currentUser st;
     roomName := name room;
     action := if is_starting room then "بدء تخمير" else "إيقاف تخمير";
     details := if is_starting room then "بدأت العملية"
                else "تم إيقاف العملية" |}.

Definition addRoom_entry (st : AppState) (e : Env) (nm : string) : LogFields :=
  {| timestamp := log_now e;
     userRole := currentUser st;
     roomName := nm;
     action := "إضافة غرفة";
     details := "تم إنشاء غرفة جديدة" |}.

(** The shape of a handler run that reached its write: the write, then the
    log append when the write was accepted. *)
Definition write_then_log (e : Env) (rq : Request) (entry : LogFields)
    : Async unit :=
  (Storage rq (write_ok e)
   :: (if write_ok e then [Storage (AddLogReq entry) (log_ok e)] else []),
   if write_ok e then Some tt else None).

(** * Properties *)

(** ** The lookup of the target room *)

Lemma find_room_Some rs id r :
  find_room rs id = Some r → r ∈ rs ∧ room_id r = id.
Proof.
  unfold find_room. intros H. apply find_some in H as [Hin Heq].
  split; [by apply list_elem_of_In | by apply String.eqb_eq].
Qed.

Lemma find_room_None rs id :
  find_room rs id = None ↔ id ∉ room_id <$> rs.
Proof.
  unfold find_room. induction rs as [|r rs IH]; simpl.
  - split; [intros _ Hin; by apply elem_of_nil in Hin | done].
  - destruct (String.eqb (room_id r) id) eqn:E.
    + apply String.eqb_eq in E. split; [done|].
      intros Hn. exfalso. apply Hn. rewrite E. apply list_elem_of_here.
    + apply String.eqb_neq in E. rewrite IH. rewrite not_elem_of_cons.
      split; [intros H; split; [congruence|done] | by intros [_ H]].
Qed.

Lemma find_room_exists rs id :
  id ∈ room_id <$> rs → ∃ r, find_room rs id = Some r.
Proof.
  intros Hin. destruct (find_room rs id) as [r|] eqn:E; [by exists r|].
  by apply find_room_None in E.
Qed.

(** [x || 0] on a quantity read from the inventory: the quantity, and [0]
    when the key is absent. *)
Lemma oldQty_of_default room material :
  oldQty_of room material = default 0 (inventory room !! material).
Proof.
  unfold oldQty_of. destruct (inventory room !! material) as [q|]; simpl; [|done].
  destruct (q =? 0) eqn:E; simpl; [|done]. apply Z.eqb_eq in E. by subst.
Qed.

(** ** The handlers on a room that the lookup finds *)

(** After the lookup has been rewritten, a handler body is a write followed
    by the dropped call of [addLog]; both answers of [write_ok] are run. *)
Ltac run_body e :=
  unfold write_then_log, addLog, await, unawaited, emit, try_catch, bind;
  destruct (write_ok e); reflexivity.

Lemma handleUpdateStock_found st e id material amount room :
  find_room (rooms st) id = Some room →
  handleUpdateStock st e id material amount =
    write_then_log e
      (UpdateStockReq id material (oldQty_of room material + amount))
      (stock_entry st e room material amount).
Proof.
  intros Hf. unfold handleUpdateStock, stock_entry. rewrite Hf. run_body e.
Qed.

Lemma handleUpdateTemp_found st e id temp room :
  find_room (rooms st) id = Some room →
  handleUpdateTemp st e id temp =
    write_then_log e
      (UpdateRoomFieldsReq id {| patch_temperature := Some temp;
                                 patch_fermentationStart := None |})
      (temp_entry st e room temp).
Proof.
  intros Hf. unfold handleUpdateTemp, temp_entry. rewrite Hf. run_body e.
Qed.

Lemma handleToggleFermentation_found st e id room :
  find_room (rooms st) id = Some room →
  handleToggleFermentation st e id =
    write_then_log e (UpdateRoomFieldsReq id (toggle_patch e room))
                   (toggle_entry st e room).
Proof.
  intros Hf. unfold handleToggleFermentation. rewrite Hf.
  unfold toggle_patch, toggle_entry, is_starting. run_body e.
Qed.

Lemma handleAddRoom_named st e nm :
  nm ≠ "" →
  handleAddRoom st e (Some nm) =
    if write_ok e
    then ([Storage (AddRoomReq nm) true;
           Storage (AddLogReq (addRoom_entry st e nm)) (log_ok e)], Some tt)
    else ([Storage (AddRoomReq nm) false;
           ConsoleError "Error adding room:";
           Alert "حدث خطأ أثناء إضافة الغرفة"], Some tt).
Proof.
  intros Hnm. unfold handleAddRoom, truthy_string.
  apply String.eqb_neq in Hnm. rewrite Hnm. simpl.
  unfold addRoom_entry. run_body e.
Qed.

Lemma writes_of_write_then_log e rq entry :
  is_log_request (Storage rq true) = false →
  writes_of (trace (write_then_log e rq entry)) = [rq].
Proof.
  intros Hrq. unfold write_then_log, trace. simpl.
  destruct rq; try discriminate; by destruct (write_ok e).
Qed.

Lemma log_entries_of_write_then_log e rq entry :
  is_log_request (Storage rq true) = false →
  log_entries_of (trace (write_then_log e rq entry))
  = if write_ok e then [entry] else [].
Proof.
  intros Hrq. unfold write_then_log, trace. simpl.
  destruct rq; try discriminate; by destruct (write_ok e).
Qed.

Lemma elem_of_update_room id f rs r' :
  (∀ r, room_id (f r) = room_id r) →
  r' ∈ update_room id f rs → room_id r' = id →
  ∃ r0, r0 ∈ rs ∧ room_id r0 = id ∧ r' = f r0.
Proof.
  intros Hf Hin Hid. unfold update_room in Hin.
  apply list_elem_of_fmap in Hin as (r0 & -> & Hr0).
  destruct (String.eqb (room_id r0) id) eqn:E.
  - apply String.eqb_eq in E. by exists r0.
  - apply String.eqb_neq in E. by rewrite Hid in E.
Qed.

Lemma commit_updateStock f db id material q entry b :
  remote_rooms
    (commit f [Storage (UpdateStockReq id material q) true;
               Storage (AddLogReq entry) b] db)
  = update_room id (set_stock material q) (remote_rooms db).
Proof. unfold commit. simpl. by destruct b. Qed.

(** C1, as the specification words it, fails: room R1 holds 5 of a material,
    the adjustment by -10 sends the quantity -5 to the store where the
    clamped value would be 0, and after the push the mirror holds -5. *)
Lemma handleUpdateStock_no_clamp :
  oldQty_of room_R1 "سكر" = 5 ∧
  writes_of (trace (handleUpdateStock (sample_state ADMIN) sample_env
                      "r1" "سكر" (-10)))
    = [UpdateStockReq "r1" "سكر" (-5)] ∧
  -5 ≠ Z.max 0 (5 + -10) ∧
  (inventory <$>
     find_room
       (rooms (mirror (run (sample_world ADMIN)
                           [sample_event (UpdateStock "r1" "سكر" (-10));
                            sample_event PushRooms])))
       "r1") = Some {[ "سكر" := -5 ]}.
Proof. repeat split; try done; vm_compute; done. Qed.

(** C1 (amended): for a target id of the mirror, a material that is no
    property name inherited from [Object.prototype], and a delta such that
    the delta, the old quantity and their sum are safe integers, Adjust
    stock sends to the store the quantity [old + delta], not clamped, for
    [inventory[material]], where [old] is the quantity of the material in the
    room the lookup returns and [0] when the key is absent; once the store
    has accepted the write and pushed, every room of the mirror with that id
    holds [old + delta].  Adjusting by [-Q] at quantity [Q] hence writes [0];
    a further [-Q] at quantity [0] writes [-Q], and its accepted write is
    still followed by one log append. *)
Theorem handleUpdateStock_writes_sum (w : World) (e : Env) (f : Fresh)
    (id material : string) (delta : Z) :
  id ∈ room_id <$> rooms (mirror w) →
  faithful_stock_input (mirror w) id material delta →
  ∃ room old,
    find_room (rooms (mirror w)) id = Some room ∧
    old = default 0 (inventory room !! material) ∧
    writes_of (trace (handleUpdateStock (mirror w) e id material delta))
      = [UpdateStockReq id material (old + delta)] ∧
    (write_ok e = true →
     ∀ r', r' ∈ rooms (mirror (run w
                 [ {| ev_action := UpdateStock id material delta;
                      ev_env := e; ev_fresh := f |};
                   {| ev_action := PushRooms; ev_env := e; ev_fresh := f |} ])) →
           room_id r' = id →
           inventory r' !! material = Some (old + delta)) ∧
    (delta = - old →
     writes_of (trace (handleUpdateStock (mirror w) e id material delta))
       = [UpdateStockReq id material 0]) ∧
    (old = 0 →
     writes_of (trace (handleUpdateStock (mirror w) e id material delta))
       = [UpdateStockReq id material delta] ∧
     (write_ok e = true →
      length (log_entries_of
                (trace (handleUpdateStock (mirror w) e id material delta)))
        = 1%nat)).
Proof.
  intros Hid _. destruct (find_room_exists _ _ Hid) as [room Hroom].
  exists room, (default 0 (inventory room !! material)).
  assert (Hw : writes_of
                 (trace (handleUpdateStock (mirror w) e id material delta))
               = [UpdateStockReq id material
                    (default 0 (inventory room !! material) + delta)]).
  { rewrite (handleUpdateStock_found _ _ _ _ _ _ Hroom), oldQty_of_default.
    by apply writes_of_write_then_log. }
  split; [done|]. split; [done|]. split; [done|]. split; [|split].
  - intros Hok r' Hin Hr'. unfold run in Hin. simpl in Hin.
    unfold step in Hin. simpl in Hin.
    rewrite (handleUpdateStock_found _ _ _ _ _ _ Hroom) in Hin.
    unfold write_then_log, trace in Hin. rewrite Hok in Hin. simpl fst in Hin.
    rewrite commit_updateStock in Hin.
    apply elem_of_update_room in Hin as (r0 & _ & _ & ->); [|done|done].
    rewrite oldQty_of_default. simpl. apply lookup_insert_eq.
  - intros ->. rewrite Hw. do 3 f_equal. lia.
  - intros H0. rewrite Hw, H0. split; [done|].
    intros Hok. rewrite (handleUpdateStock_found _ _ _ _ _ _ Hroom).
    rewrite log_entries_of_write_then_log by done. by rewrite Hok.
Qed.

Lemma handleUpdateStock_writes_sum_witness :
  "r1" ∈ room_id <$> rooms (mirror (sample_world GUEST)) ∧
  faithful_stock_input (mirror (sample_world GUEST)) "r1" "سكر" (-7) ∧
  ∃ room old,
    find_room (rooms (mirror (sample_world GUEST))) "r1" = Some room ∧
    old = default 0 (inventory room !! "سكر") ∧
    writes_of (trace (handleUpdateStock (mirror (sample_world GUEST))
                        sample_env "r1" "سكر" (-7)))
      = [UpdateStockReq "r1" "سكر" (old + -7)].
Proof.
  assert (H : "r1" ∈ room_id <$> rooms (mirror (sample_world GUEST))).
  { vm_compute. apply list_elem_of_here. }
  assert (Hf : faithful_stock_input (mirror (sample_world GUEST))
                 "r1" "سكر" (-7)).
  { split; [|split].
    - apply (bool_decide_unpack _). vm_compute. exact I.
    - vm_compute. split; reflexivity.
    - intros room Hr. assert (Some room_R1 = Some room) as [= <-] by exact Hr.
      vm_compute. repeat split; reflexivity. }
  split; [exact H|]. split; [exact Hf|].
  destruct (handleUpdateStock_writes_sum (sample_world GUEST) sample_env
              sample_fresh "r1" "سكر" (-7) H Hf)
    as (room & old & H1 & H2 & H3 & _).
  exists room, old. auto.
Defined.



(** C8, as the specification words it, fails: a call with invalid input is
    not rejected.  With an empty name, and with an id that is no id of the
    mirror, the promise of the handler is fulfilled and the user is shown
    nothing. *)
Lemma invalid_input_not_rejected :
  Forall (λ m : Async unit, outcome m = Some tt ∧ alerts_of (trace m) = [])
    [ handleAddRoom (sample_state ADMIN) sample_env (Some "");
      handleUpdateTemp (sample_state ADMIN) sample_env "r7" 30;
      handleUpdateStock (sample_state ADMIN) sample_env "r7" "ماء" 4;
      handleToggleFermentation (sample_state ADMIN) sample_env "r7" ].
Proof. repeat constructor. Qed.

(** C8 (amended): with an empty room name (or a cancelled prompt) Add room
    returns at once, and with a target id that is no id of the mirror Update
    temperature, Adjust stock and Toggle fermentation return at once: the
    run is [ret tt], so no call reaches the store and no log entry is
    appended.  The call is ignored in silence, not rejected: its promise is
    fulfilled and nothing is shown to the user. *)
Theorem invalid_input_no_request (st : AppState) (e : Env)
    (answer : option string) (id material : string) (temp amount : Z) :
  answer = Some "" ∨ answer = None →
  id ∉ room_id <$> rooms st →
  handleAddRoom st e answer = ret tt ∧
  handleUpdateTemp st e id temp = ret tt ∧
  handleUpdateStock st e id material amount = ret tt ∧
  handleToggleFermentation st e id = ret tt ∧
  Forall (λ m : Async unit,
            storage_calls (trace m) = [] ∧
            log_entries_of (trace m) = [] ∧
            alerts_of (trace m) = [] ∧
            outcome m = Some tt)
         [ handleAddRoom st e answer;
           handleUpdateTemp st e id temp;
           handleUpdateStock st e id material amount;
           handleToggleFermentation st e id ].
Proof.
  intros Hans Hid. apply find_room_None in Hid.
  unfold handleUpdateTemp, handleUpdateStock, handleToggleFermentation.
  rewrite Hid.
  assert (Hadd : handleAddRoom st e answer = ret tt)
    by (destruct Hans as [-> | ->]; done).
  rewrite Hadd. repeat split; repeat constructor.
Qed.

Lemma invalid_input_no_request_witness :
  handleAddRoom (sample_state ADMIN) sample_env (Some "") = ret tt ∧
  handleUpdateTemp (sample_state ADMIN) sample_env "r7" 30 = ret tt ∧
  handleUpdateStock (sample_state ADMIN) sample_env "r7" "ماء" 4 = ret tt ∧
  handleToggleFermentation (sample_state ADMIN) sample_env "r7" = ret tt.
Proof.
  assert (H1 : Some "" = Some "" ∨ Some "" = (None : option string))
    by (left; reflexivity).
  assert (H2 : "r7" ∉ room_id <$> rooms (sample_state ADMIN)).
  { apply (bool_decide_unpack _). vm_compute. exact I. }
  destruct (invalid_input_no_request (sample_state ADMIN) sample_env
              (Some "") "r7" "ماء" 30 4 H1 H2) as (Ha & Hb & Hc & Hd & _).
  repeat split; assumption.
Defined.

(** C10: a room whose fermentationStart is the number 0 is toggled as an
    inactive room: the write sets fermentationStart to the current
    timestamp, and the entry appended after it carries the "fermentation
    started" label. *)
Theorem toggle_at_zero_starts (st : AppState) (e : Env) (id : string)
    (room : Room) :
  find_room (rooms st) id = Some room →
  fermentationStart room = Some 0 →
  writes_of (trace (handleToggleFermentation st e id))
  = [UpdateRoomFieldsReq id
       {| patch_temperature := None;
          patch_fermentationStart := Some (Some (now e)) |}] ∧
  log_entries_of (trace (handleToggleFermentation st e id))
  = if write_ok e
    then [ {| timestamp := log_now e; userRole := currentUser st;
              roomName := name room; action := "بدء تخمير";
              details := "بدأت العملية" |} ]
    else [].
Proof.
  intros Hroom H0.
  rewrite (handleToggleFermentation_found _ _ _ _ Hroom).
  rewrite writes_of_write_then_log, log_entries_of_write_then_log by done.
  unfold toggle_patch, toggle_entry, is_starting. rewrite H0. done.
Qed.

Lemma toggle_at_zero_starts_witness :
  find_room (rooms (sample_state AUDITOR)) "r3" = Some room_R3 ∧
  fermentationStart room_R3 = Some 0 ∧
  writes_of (trace (handleToggleFermentation (sample_state AUDITOR)
                      sample_env "r3"))
  = [UpdateRoomFieldsReq "r3"
       {| patch_temperature := None;
          patch_fermentationStart := Some (Some 1700000000000) |}].
Proof.
  split; [reflexivity|]. split; [reflexivity|].
  apply (toggle_at_zero_starts (sample_state AUDITOR) sample_env "r3" room_R3);
    reflexivity.
Defined.

(** ** Toggling through the store *)

Lemma find_room_update_room id f rs :
  (∀ r, room_id (f r) = room_id r) →
  find_room (update_room id f rs) id = f <$> find_room rs id.
Proof.
  intros Hf. unfold find_room, update_room.
  induction rs as [|r rs IH]; [done|]. simpl.
  destruct (String.eqb (room_id r) id) eqn:E.
  - rewrite Hf, E. done.
  - rewrite E. exact IH.
Qed.

Lemma commit_updateRoomFields f db id p entry b :
  remote_rooms
    (commit f [Storage (UpdateRoomFieldsReq id p) true;
               Storage (AddLogReq entry) b] db)
  = update_room id (apply_patch p) (remote_rooms db).
Proof. unfold commit. simpl. by destruct b. Qed.

Lemma step_toggle_push w e f f' e' id room :
  find_room (rooms (mirror w)) id = Some room →
  write_ok e = true →
  rooms (mirror (run w
     [ {| ev_action := ToggleFermentation id; ev_env := e; ev_fresh := f |};
       {| ev_action := PushRooms; ev_env := e'; ev_fresh := f' |} ]))
  = update_room id (apply_patch (toggle_patch e room)) (remote_rooms (remote w)).
Proof.
  intros Hroom Hok. unfold run, step. simpl.
  rewrite (handleToggleFermentation_found _ _ _ _ Hroom).
  unfold write_then_log, trace. rewrite Hok. simpl fst.
  apply commit_updateRoomFields.
Qed.

Lemma step_toggle_push_remote w e f f' e' id :
  remote_rooms (remote (run w
     [ {| ev_action := ToggleFermentation id; ev_env := e; ev_fresh := f |};
       {| ev_action := PushRooms; ev_env := e'; ev_fresh := f' |} ]))
  = rooms (mirror (run w
     [ {| ev_action := ToggleFermentation id; ev_env := e; ev_fresh := f |};
       {| ev_action := PushRooms; ev_env := e'; ev_fresh := f' |} ])).
Proof. reflexivity. Qed.

(** C4, as the specification words it, fails twice.  Room R3 has the
    non-null fermentationStart 0 and the toggle writes a timestamp, not
    null.  Room R2 ferments since 1699999990000; toggled twice, with the push
    after each write, it ferments since the time of the second toggle. *)
Lemma toggle_not_restoring :
  fermentationStart room_R3 = Some 0 ∧
  writes_of (trace (handleToggleFermentation (sample_state ADMIN)
                      sample_env "r3"))
  = [UpdateRoomFieldsReq "r3"
       {| patch_temperature := None;
          patch_fermentationStart := Some (Some 1700000000000) |}] ∧
  fermentationStart room_R2 = Some 1699999990000 ∧
  (fermentationStart <$>
     find_room
       (rooms (mirror (run (sample_world ADMIN)
                           [sample_event (ToggleFermentation "r2");
                            sample_event PushRooms;
                            sample_event (ToggleFermentation "r2");
                            sample_event PushRooms])))
       "r2") = Some (Some 1700000000000) ∧
  Some 1700000000000 ≠ fermentationStart room_R2.
Proof. repeat split; try done; vm_compute; done. Qed.

Lemma step_toggle_push_missing w e f f' e' id :
  find_room (rooms (mirror w)) id = None →
  rooms (mirror (run w
     [ {| ev_action := ToggleFermentation id; ev_env := e; ev_fresh := f |};
       {| ev_action := PushRooms; ev_env := e'; ev_fresh := f' |} ]))
  = remote_rooms (remote w).
Proof.
  intros Hnone. unfold run, step. simpl.
  unfold handleToggleFermentation. by rewrite Hnone.
Qed.

Lemma run_four w a b c d : run w [a; b; c; d] = run (run w [a; b]) [c; d].
Proof. reflexivity. Qed.

(** Two toggles through the store, the first one starting: what the mirror
    holds after the second push. *)
Lemma toggle_twice_rooms w e1 e2 f id room :
  find_room (rooms (mirror w)) id = Some room →
  fermentationStart room = None →
  write_ok e1 = true → write_ok e2 = true → now e1 ≠ 0 →
  let started :=
    {| patch_temperature := None;
       patch_fermentationStart := Some (Some (now e1)) |} in
  let stopped :=
    {| patch_temperature := None; patch_fermentationStart := Some None |} in
  let final :=
    rooms (mirror (run w
      [ {| ev_action := ToggleFermentation id; ev_env := e1; ev_fresh := f |};
        {| ev_action := PushRooms; ev_env := e1; ev_fresh := f |};
        {| ev_action := ToggleFermentation id; ev_env := e2; ev_fresh := f |};
        {| ev_action := PushRooms; ev_env := e2; ev_fresh := f |} ])) in
  (id ∈ room_id <$> remote_rooms (remote w) ∧
   final = update_room id (apply_patch stopped)
             (update_room id (apply_patch started) (remote_rooms (remote w))))
  ∨ ((id ∉ room_id <$> remote_rooms (remote w)) ∧
     final = update_room id (apply_patch started) (remote_rooms (remote w))).
Proof.
  intros Hroom Hnull Hok1 Hok2 Hnow started stopped final.
  subst final. rewrite run_four.
  set (w1 := run w
         [ {| ev_action := ToggleFermentation id; ev_env := e1; ev_fresh := f |};
           {| ev_action := PushRooms; ev_env := e1; ev_fresh := f |} ]).
  assert (Hp1 : toggle_patch e1 room = started).
  { unfold toggle_patch, is_starting. by rewrite Hnull. }
  assert (Hrooms1 : rooms (mirror w1)
            = update_room id (apply_patch started) (remote_rooms (remote w))).
  { subst w1. by rewrite (step_toggle_push w e1 f f e1 id room Hroom Hok1), Hp1. }
  assert (Hremote1 : remote_rooms (remote w1) = rooms (mirror w1))
    by apply step_toggle_push_remote.
  destruct (find_room (remote_rooms (remote w)) id) as [r0|] eqn:Hr0.
  - left. split.
    { apply find_room_Some in Hr0 as [Hin <-].
      apply list_elem_of_fmap. by exists r0. }
    assert (Hfind1 : find_room (rooms (mirror w1)) id
              = Some (apply_patch started r0)).
    { rewrite Hrooms1, find_room_update_room by done. by rewrite Hr0. }
    rewrite (step_toggle_push w1 e2 f f e2 id _ Hfind1 Hok2).
    rewrite Hremote1, Hrooms1. do 2 f_equal.
    unfold toggle_patch, is_starting. simpl.
    apply Z.eqb_neq in Hnow. by rewrite Hnow.
  - right. split; [by apply find_room_None|].
    assert (Hfind1 : find_room (rooms (mirror w1)) id = None).
    { rewrite Hrooms1, find_room_update_room by done. by rewrite Hr0. }
    rewrite (step_toggle_push_missing w1 e2 f f e2 id Hfind1).
    by rewrite Hremote1, Hrooms1.
Qed.

(** C4 (amended): for a target id of the mirror, Toggle fermentation sets
    fermentationStart to the current timestamp and logs "fermentation
    started" when the room the lookup returns has a null fermentationStart,
    and sets it to null and logs "fermentation stopped" when it has a
    timestamp other than 0.  Starting from null, with both writes accepted,
    the push after each write and a first timestamp other than 0, two
    toggles leave fermentationStart null in every room of that id that the
    mirror then holds, there is such a room when the store has the id, and
    when the mirror was equal to the store before the first toggle the
    room is back as it was. *)
Theorem toggle_flips (w : World) (e1 e2 : Env) (f : Fresh) (id : string) :
  id ∈ room_id <$> rooms (mirror w) →
  ∃ room,
    find_room (rooms (mirror w)) id = Some room ∧
    (fermentationStart room = None →
     writes_of (trace (handleToggleFermentation (mirror w) e1 id))
     = [UpdateRoomFieldsReq id
          {| patch_temperature := None;
             patch_fermentationStart := Some (Some (now e1)) |}] ∧
     action <$> log_entries_of
                  (trace (handleToggleFermentation (mirror w) e1 id))
     = if write_ok e1 then ["بدء تخمير"] else []) ∧
    (∀ t, fermentationStart room = Some t → t ≠ 0 →
     writes_of (trace (handleToggleFermentation (mirror w) e1 id))
     = [UpdateRoomFieldsReq id
          {| patch_temperature := None;
             patch_fermentationStart := Some None |}] ∧
     action <$> log_entries_of
                  (trace (handleToggleFermentation (mirror w) e1 id))
     = if write_ok e1 then ["إيقاف تخمير"] else []) ∧
    (fermentationStart room = None →
     write_ok e1 = true → write_ok e2 = true → now e1 ≠ 0 →
     let final :=
       rooms (mirror (run w
          [ {| ev_action := ToggleFermentation id; ev_env := e1; ev_fresh := f |};
            {| ev_action := PushRooms; ev_env := e1; ev_fresh := f |};
            {| ev_action := ToggleFermentation id; ev_env := e2; ev_fresh := f |};
            {| ev_action := PushRooms; ev_env := e2; ev_fresh := f |} ])) in
     (∀ r', r' ∈ final → room_id r' = id → fermentationStart r' = None) ∧
     (id ∈ room_id <$> remote_rooms (remote w) →
      ∃ r', find_room final id = Some r' ∧ fermentationStart r' = None) ∧
     (remote_rooms (remote w) = rooms (mirror w) →
      find_room final id = Some room)).
Proof.
  intros Hid. destruct (find_room_exists _ _ Hid) as [room Hroom].
  exists room. split; [done|].
  pose proof (handleToggleFermentation_found (mirror w) e1 id room Hroom) as Hh.
  split; [|split].
  - intros Hnull. rewrite Hh.
    rewrite writes_of_write_then_log, log_entries_of_write_then_log by done.
    unfold toggle_patch, toggle_entry, is_starting. rewrite Hnull. simpl.
    split; [done|]. by destruct (write_ok e1).
  - intros t Ht Hne. rewrite Hh.
    rewrite writes_of_write_then_log, log_entries_of_write_then_log by done.
    unfold toggle_patch, toggle_entry, is_starting. rewrite Ht. simpl.
    apply Z.eqb_neq in Hne. rewrite Hne. simpl.
    split; [done|]. by destruct (write_ok e1).
  - intros Hnull Hok1 Hok2 Hnow final.
    pose proof (toggle_twice_rooms w e1 e2 f id room Hroom Hnull Hok1 Hok2 Hnow)
      as Htwice.
    cbv zeta in Htwice. fold final in Htwice.
    destruct Htwice as [[Hin Hfinal] | [Hnin Hfinal]].
    + assert (Hf : ∀ r0, find_room (remote_rooms (remote w)) id = Some r0 →
                find_room final id
                = Some {| room_id := room_id r0; name := name r0;
                          temperature := temperature r0;
                          inventory := inventory r0;
                          fermentationStart := None |}).
      { intros r0 Hr0. rewrite Hfinal.
        rewrite !find_room_update_room by done. by rewrite Hr0. }
      split; [|split].
      * intros r' Hr' Hid'. rewrite Hfinal in Hr'.
        by apply elem_of_update_room in Hr' as (r1 & _ & _ & ->).
      * intros _. destruct (find_room_exists _ _ Hin) as [r0 Hr0].
        eexists. split; [by apply Hf|done].
      * intros Hsync. rewrite Hsync in Hf. rewrite (Hf room Hroom).
        f_equal. destruct room; simpl in *; by subst.
    + split; [|split].
      * intros r' Hr' Hid'. exfalso. apply Hnin. rewrite Hfinal in Hr'.
        apply elem_of_update_room in Hr' as (r1 & Hr1 & Hid1 & _); [|done|done].
        apply list_elem_of_fmap. by exists r1.
      * intros Hin. by destruct Hnin.
      * intros Hsync. exfalso. apply Hnin. by rewrite Hsync.
Qed.

Lemma toggle_flips_witness :
  "r1" ∈ room_id <$> rooms (mirror (sample_world ADMIN)) ∧
  find_room
    (rooms (mirror (run (sample_world ADMIN)
       [ sample_event (ToggleFermentation "r1"); sample_event PushRooms;
         sample_event (ToggleFermentation "r1"); sample_event PushRooms ])))
    "r1"
  = Some room_R1.
Proof.
  assert (H : "r1" ∈ room_id <$> rooms (mirror (sample_world ADMIN))).
  { vm_compute. apply list_elem_of_here. }
  split; [exact H|].
  destruct (toggle_flips (sample_world ADMIN) sample_env sample_env
              sample_fresh "r1" H) as (room & Hf & _ & _ & Htwice).
  assert (Some room_R1 = Some room) as [= <-] by exact Hf.
  assert (Hnow : now sample_env ≠ 0) by (vm_compute; discriminate).
  exact (proj2 (proj2 (Htwice eq_refl eq_refl eq_refl Hnow)) eq_refl).
Defined.

(** ** The role gate *)

Lemma step_no_effect w ev :
  match ev_action ev with
  | SetCurrentUser _ | PushRooms | PushLogs => False
  | _ => True
  end →
  run_handler (mirror w) (ev_env ev) (ev_action ev) = ret tt →
  step w ev = w.
Proof.
  intros Ha Hr. unfold step. destruct (ev_action ev); try done;
    rewrite Hr; by destruct w.
Qed.

(** C3, as the specification words it, fails: under the Guest role the
    button is not in the page, a click where it would be runs no handler,
    and the user is told nothing; no rejection is shown.  The handler itself
    does not look at the role: run under Guest it adds the room and logs. *)
Lemma guest_add_room_not_reported :
  addRoomButton_rendered (sample_state GUEST) = false ∧
  clickAddRoom (sample_state GUEST) sample_env (Some "R9") = ret tt ∧
  alerts_of (trace (clickAddRoom (sample_state GUEST) sample_env (Some "R9")))
  = [] ∧
  storage_calls (trace (handleAddRoom (sample_state GUEST) sample_env
                          (Some "R9")))
  = [AddRoomReq "R9";
     AddLogReq {| timestamp := 1700000000001; userRole := GUEST;
                  roomName := "R9"; action := "إضافة غرفة";
                  details := "تم إنشاء غرفة جديدة" |}].
Proof. repeat split. Qed.

(** C3 (amended): the Add room button is rendered exactly for the Admin
    role, and the role is checked nowhere else: [handleAddRoom] sends the
    same room write under every role.  Under a role other than Admin a click
    on the place of the button runs no handler: nothing is sent to the
    store, so no Room is created and no LogEntry is appended, nothing is
    shown to the user, and store and mirror stay as they were. *)
Theorem add_room_gate (w : World) (ev : Event) (answer : option string) :
  ev_action ev = ClickAddRoom answer →
  (addRoomButton_rendered (mirror w) = true ↔ currentUser (mirror w) = ADMIN) ∧
  (currentUser (mirror w) = ADMIN →
   clickAddRoom (mirror w) (ev_env ev) answer
   = handleAddRoom (mirror w) (ev_env ev) answer) ∧
  (currentUser (mirror w) ≠ ADMIN →
   clickAddRoom (mirror w) (ev_env ev) answer = ret tt ∧
   storage_calls (trace (clickAddRoom (mirror w) (ev_env ev) answer)) = [] ∧
   alerts_of (trace (clickAddRoom (mirror w) (ev_env ev) answer)) = [] ∧
   step w ev = w) ∧
  (∀ role,
     writes_of (trace (handleAddRoom (mirror w) (ev_env ev) answer))
     = writes_of (trace (handleAddRoom
                           {| rooms := rooms (mirror w);
                              logs := logs (mirror w);
                              currentUser := role |} (ev_env ev) answer))).
Proof.
  intros Ha. unfold clickAddRoom, addRoomButton_rendered.
  split; [apply bool_decide_eq_true|]. split; [|split].
  - intros Hadmin. by rewrite bool_decide_eq_true_2.
  - intros Hrole. rewrite bool_decide_eq_false_2 by done.
    repeat split. apply step_no_effect; rewrite Ha; [done|].
    simpl. unfold clickAddRoom, addRoomButton_rendered.
    by rewrite bool_decide_eq_false_2.
  - intros role. destruct answer as [nm|]; [|done].
    destruct (decide (nm = "")) as [->|Hnm]; [done|].
    rewrite !(handleAddRoom_named _ _ _ Hnm).
    by destruct (write_ok (ev_env ev)).
Qed.

Lemma add_room_gate_witness :
  clickAddRoom (mirror (sample_world AUDITOR)) sample_env (Some "R9") = ret tt ∧
  step (sample_world AUDITOR) (sample_event (ClickAddRoom (Some "R9")))
  = sample_world AUDITOR.
Proof.
  destruct (add_room_gate (sample_world AUDITOR)
              (sample_event (ClickAddRoom (Some "R9"))) (Some "R9")
              eq_refl) as (_ & _ & Hdenied & _).
  destruct Hdenied as (H1 & _ & _ & H2); [discriminate|].
  split; [exact H1 | exact H2].
Defined.

(** ** One log append for each mutation that went through *)

Lemma valid_target_found st id room :
  find_room (rooms st) id = Some room →
  bool_decide (id ∈ room_id <$> rooms st) = true.
Proof.
  intros Hf. apply find_room_Some in Hf as [Hin <-].
  apply bool_decide_eq_true_2, list_elem_of_fmap. by exists room.
Qed.

Lemma valid_target_missing st id :
  find_room (rooms st) id = None →
  bool_decide (id ∈ room_id <$> rooms st) = false.
Proof. intros Hf. by apply bool_decide_eq_false_2, find_room_None. Qed.

Lemma write_then_log_counts e rq entry :
  is_log_request (Storage rq true) = false →
  length (log_entries_of (trace (write_then_log e rq entry)))
  = (if write_ok e then 1 else 0)%nat ∧
  length (accepted_log_entries (trace (write_then_log e rq entry)))
  = (if write_ok e && log_ok e then 1 else 0)%nat.
Proof.
  intros Hrq. unfold write_then_log, trace. simpl.
  destruct rq; try discriminate;
    destruct (write_ok e), (log_ok e); done.
Qed.

(** A handler run appends once when the mutation went through and not at
    all otherwise; the append is accepted when the store says so. *)
Lemma run_handler_counts st ev :
  length (log_entries_of
            (trace (run_handler st (ev_env ev) (ev_action ev))))
  = (if write_succeeds st ev then 1 else 0)%nat ∧
  length (accepted_log_entries
            (trace (run_handler st (ev_env ev) (ev_action ev))))
  = (if call_succeeds st ev then 1 else 0)%nat.
Proof.
  unfold call_succeeds, write_succeeds.
  destruct (ev_action ev) as [answer|id temp|id material amount|id|role| |];
    simpl; try done.
  - unfold clickAddRoom, addRoomButton_rendered.
    case_bool_decide; simpl; [|done].
    destruct answer as [nm|]; [|done].
    destruct (decide (nm = "")) as [->|Hnm]; [done|].
    rewrite (handleAddRoom_named _ _ _ Hnm).
    assert (truthy_string (Some nm) = true) as ->.
    { unfold truthy_string. apply negb_true_iff. by apply String.eqb_neq. }
    simpl. destruct (write_ok (ev_env ev)), (log_ok (ev_env ev)); done.
  - destruct (find_room (rooms st) id) as [room|] eqn:Hf.
    + rewrite (valid_target_found _ _ _ Hf), (handleUpdateTemp_found _ _ _ _ _ Hf).
      by apply write_then_log_counts.
    + rewrite (valid_target_missing _ _ Hf). unfold handleUpdateTemp.
      by rewrite Hf.
  - destruct (find_room (rooms st) id) as [room|] eqn:Hf.
    + rewrite (valid_target_found _ _ _ Hf),
        (handleUpdateStock_found _ _ _ _ _ _ Hf).
      by apply write_then_log_counts.
    + rewrite (valid_target_missing _ _ Hf). unfold handleUpdateStock.
      by rewrite Hf.
  - destruct (find_room (rooms st) id) as [room|] eqn:Hf.
    + rewrite (valid_target_found _ _ _ Hf),
        (handleToggleFermentation_found _ _ _ _ Hf).
      by apply write_then_log_counts.
    + rewrite (valid_target_missing _ _ Hf). unfold handleToggleFermentation.
      by rewrite Hf.
Qed.

Lemma commit_logs f t db :
  length (remote_logs (commit f t db))
  = (length (remote_logs db) + length (accepted_log_entries t))%nat.
Proof.
  unfold commit. revert db. induction t as [|eff t IH]; intros db; simpl.
  - lia.
  - rewrite IH. destruct eff as [rq [|] | |]; simpl; try lia;
      destruct rq; simpl; try lia.
    rewrite length_app. simpl. lia.
Qed.

Lemma step_logs w ev :
  length (remote_logs (remote (step w ev)))
  = (length (remote_logs (remote w))
     + if call_succeeds (mirror w) ev then 1 else 0)%nat.
Proof.
  pose proof (run_handler_counts (mirror w) ev) as [_ Hacc].
  unfold step. unfold call_succeeds, write_succeeds in *.
  destruct (ev_action ev); simpl in *; try lia;
    rewrite commit_logs, Hacc; done.
Qed.

Lemma count_along_call_le_write w evs :
  (count_along call_succeeds w evs ≤ count_along write_succeeds w evs)%nat.
Proof.
  revert w. induction evs as [|ev evs IH]; intros w; simpl; [lia|].
  pose proof (IH (step w ev)).
  change (call_succeeds (mirror w) ev)
    with (write_succeeds (mirror w) ev && log_ok (ev_env ev)).
  destruct (write_succeeds (mirror w) ev), (log_ok (ev_env ev)); simpl; lia.
Qed.

Lemma count_along_call_eq_write w evs :
  Forall (λ ev, log_ok (ev_env ev) = true) evs →
  count_along call_succeeds w evs = count_along write_succeeds w evs.
Proof.
  intros Hall. revert w.
  induction Hall as [|ev evs Hev _ IH]; intros w; simpl; [done|].
  rewrite IH.
  change (call_succeeds (mirror w) ev)
    with (write_succeeds (mirror w) ev && log_ok (ev_env ev)).
  rewrite Hev. by destruct (write_succeeds (mirror w) ev).
Qed.

(** C2, as the specification words it, fails: the temperature of room R1 is
    updated, the store accepts the write and refuses the append that the
    handler sends without awaiting it.  The mutation went through, the room
    in the store has the new temperature, and no LogEntry was created. *)
Lemma refused_append_leaves_no_record :
  count_along write_succeeds (sample_world ADMIN)
    [ {| ev_action := UpdateTemp "r1" 21; ev_env := log_refused_env;
         ev_fresh := sample_fresh |} ] = 1%nat ∧
  outcome (handleUpdateTemp (sample_state ADMIN) log_refused_env "r1" 21)
  = Some tt ∧
  (temperature <$>
     find_room
       (remote_rooms (remote (run (sample_world ADMIN)
          [ {| ev_action := UpdateTemp "r1" 21; ev_env := log_refused_env;
               ev_fresh := sample_fresh |} ])))
       "r1") = Some 21 ∧
  remote_logs (remote (run (sample_world ADMIN)
     [ {| ev_action := UpdateTemp "r1" 21; ev_env := log_refused_env;
          ev_fresh := sample_fresh |} ])) = [].
Proof. repeat split; vm_compute; reflexivity. Qed.

(** C2 (amended): along every sequence of calls (with pushes and role
    switches in between), a handler sends a log append exactly when its
    input was valid and the store accepted its write, and then one: the
    appends sent are as many as the successful mutation calls, and a call
    with invalid input or a refused write sends none.  The append is not
    awaited: when the store refuses it, the successful mutation leaves no
    LogEntry.  The LogEntry records created are therefore as many as the
    calls whose write and append were both accepted, never more than the
    successful mutation calls and as many when no append is refused. *)
Theorem one_log_per_successful_call (w : World) (evs : list Event) :
  length (log_entries_of (run_trace w evs))
  = count_along write_succeeds w evs ∧
  length (remote_logs (remote (run w evs)))
  = (length (remote_logs (remote w)) + count_along call_succeeds w evs)%nat ∧
  (count_along call_succeeds w evs ≤ count_along write_succeeds w evs)%nat ∧
  (Forall (λ ev, log_ok (ev_env ev) = true) evs →
   length (remote_logs (remote (run w evs)))
   = (length (remote_logs (remote w))
      + count_along write_succeeds w evs)%nat).
Proof.
  assert (Hmain :
    length (log_entries_of (run_trace w evs))
    = count_along write_succeeds w evs ∧
    length (remote_logs (remote (run w evs)))
    = (length (remote_logs (remote w))
       + count_along call_succeeds w evs)%nat).
  { revert w. induction evs as [|ev evs IH]; intros w; simpl.
    - split; [done | lia].
    - destruct (IH (step w ev)) as [IH1 IH2]. split.
      + destruct (run_handler_counts (mirror w) ev) as [Hhere _].
        unfold log_entries_of in *.
        by rewrite omap_app, length_app, IH1, Hhere.
      + unfold run in *. rewrite IH2, step_logs. lia. }
  destruct Hmain as [H1 H2].
  split; [done|]. split; [done|]. split; [apply count_along_call_le_write|].
  intros Hall. by rewrite H2, (count_along_call_eq_write _ _ Hall).
Qed.

(** ** The materials catalog *)

Lemma elem_of_Object_keys (inv : gmap string Z) k :
  k ∈ Object_keys inv ↔ is_Some (inv !! k).
Proof.
  unfold Object_keys. rewrite list_elem_of_fmap. split.
  - intros ([k' q] & -> & Hin). apply elem_of_map_to_list in Hin. by exists q.
  - intros [q Hq]. exists (k, q). split; [done|]. by apply elem_of_map_to_list.
Qed.

Lemma Set_add_elem used k x : x ∈ Set_add used k ↔ x ∈ used ∨ x = k.
Proof.
  unfold Set_add. case_bool_decide as Hk.
  - split; [by left|]. intros [H | ->]; done.
  - by rewrite elem_of_app, list_elem_of_singleton.
Qed.

Lemma Set_add_NoDup used k : NoDup used → NoDup (Set_add used k).
Proof.
  intros Hnd. unfold Set_add. case_bool_decide as Hk; [done|].
  apply NoDup_app. split; [done|]. split; [|apply NoDup_singleton].
  intros x Hx Hxk. apply list_elem_of_singleton in Hxk. by subst.
Qed.

Lemma fold_Set_add_elem ks used x :
  x ∈ fold_left Set_add ks used ↔ x ∈ used ∨ x ∈ ks.
Proof.
  revert used. induction ks as [|k ks IH]; intros used; simpl.
  - split; [by left|]. intros [H|H]; [done|]. by apply elem_of_nil in H.
  - rewrite IH, Set_add_elem, elem_of_cons. tauto.
Qed.

Lemma fold_Set_add_NoDup ks used :
  NoDup used → NoDup (fold_left Set_add ks used).
Proof.
  revert used. induction ks as [|k ks IH]; intros used Hnd; simpl; [done|].
  by apply IH, Set_add_NoDup.
Qed.

Lemma rooms_keys_elem rs used x :
  x ∈ fold_left (λ used r, fold_left Set_add (Object_keys (inventory r)) used)
        rs used
  ↔ x ∈ used ∨ ∃ r, r ∈ rs ∧ x ∈ Object_keys (inventory r).
Proof.
  revert used. induction rs as [|r rs IH]; intros used; simpl.
  - split; [by left|]. intros [H|(r & Hr & _)]; [done|].
    by apply elem_of_nil in Hr.
  - rewrite IH, fold_Set_add_elem. split.
    + intros [[H|H]|(r' & Hr' & Hx)].
      * by left.
      * right. exists r. split; [apply list_elem_of_here | done].
      * right. exists r'. split; [by apply list_elem_of_further | done].
    + intros [H|(r' & Hr' & Hx)]; [by left; left|].
      apply elem_of_cons in Hr' as [-> | Hr'].
      * left. by right.
      * right. by exists r'.
Qed.

Lemma rooms_keys_NoDup rs used :
  NoDup used →
  NoDup (fold_left
           (λ used r, fold_left Set_add (Object_keys (inventory r)) used)
           rs used).
Proof.
  revert used. induction rs as [|r rs IH]; intros used Hnd; simpl; [done|].
  by apply IH, fold_Set_add_NoDup.
Qed.

Lemma allMaterials_NoDup rs : NoDup (allMaterials rs).
Proof.
  unfold allMaterials.
  apply fold_Set_add_NoDup, rooms_keys_NoDup, NoDup_nil_2.
Qed.

Lemma allMaterials_elem rs m :
  m ∈ allMaterials rs ↔
  m ∈ INITIAL_MATERIALS ∨ ∃ r, r ∈ rs ∧ is_Some (inventory r !! m).
Proof.
  unfold allMaterials. rewrite fold_Set_add_elem, rooms_keys_elem. split.
  - intros [[H|(r & Hr & Hk)]|H].
    + by apply elem_of_nil in H.
    + right. exists r. split; [done|]. by apply elem_of_Object_keys.
    + by left.
  - intros [H|(r & Hr & Hk)]; [by right|].
    left. right. exists r. split; [done|]. by apply elem_of_Object_keys.
Qed.

(** C7: the materials catalog has no duplicates, and a name is in it exactly
    when it is one of the seed materials or a key of the inventory of some
    room: the catalog is the union of the two sets.  In particular every key
    of every room of the list is in the catalog. *)
Theorem allMaterials_union (rs : list Room) :
  NoDup (allMaterials rs) ∧
  (∀ m, m ∈ allMaterials rs ↔
        m ∈ INITIAL_MATERIALS ∨ ∃ r, r ∈ rs ∧ is_Some (inventory r !! m)) ∧
  (∀ r k, r ∈ rs → k ∈ Object_keys (inventory r) → k ∈ allMaterials rs).
Proof.
  split; [apply allMaterials_NoDup|]. split; [apply allMaterials_elem|].
  intros r k Hr Hk. apply allMaterials_elem. right. exists r.
  split; [done|]. by apply elem_of_Object_keys.
Qed.

(** ** Searching *)

Lemma append_empty_l s : "" +:+ s = s.
Proof. reflexivity. Qed.

Lemma append_String c s t : String c s +:+ t = String c (s +:+ t).
Proof. reflexivity. Qed.

Lemma startsWith_spec s q :
  startsWith s q = true ↔ ∃ post, s = q +:+ post.
Proof.
  revert s. induction q as [|c q IH]; intros s; simpl.
  - split; [intros _; exists s; reflexivity | done].
  - destruct s as [|d s].
    + split; [done | intros [post H]; by rewrite append_String in H].
    + rewrite andb_true_iff, IH. split.
      * intros [Hc [post ->]]. apply Ascii.eqb_eq in Hc as ->. by exists post.
      * intros [post H]. rewrite append_String in H. injection H as -> ->.
        split; [apply Ascii.eqb_refl | by exists post].
Qed.

Lemma includes_spec s q :
  includes s q = true ↔ ∃ pre post, s = pre +:+ q +:+ post.
Proof.
  induction s as [|d s IH]; simpl; rewrite orb_true_iff, startsWith_spec.
  - split.
    + intros [[post H] | H]; [by exists "", post | done].
    + intros (pre & post & H). left. destruct pre as [|c pre].
      * by exists post.
      * by rewrite append_String in H.
  - rewrite IH. split.
    + intros [[post H] | (pre & post & ->)]; [by exists "", post|].
      by exists (String d pre), post.
    + intros (pre & post & H). destruct pre as [|c pre].
      * left. by exists post.
      * right. rewrite append_String in H. injection H as -> ->.
        by exists pre, post.
Qed.

Section SearchProperties.

Variable toLowerCase : string → string.

Lemma room_matches_spec q r :
  room_matches toLowerCase (toLowerCase q) r = true
  ↔ answers_query toLowerCase q r.
Proof.
  unfold room_matches, answers_query, ci_substring.
  rewrite orb_true_iff, includes_spec, existsb_exists. split.
  - intros [H | (k & Hk & Hinc)]; [by left|]. right. exists k.
    apply list_elem_of_In, elem_of_Object_keys in Hk.
    by apply includes_spec in Hinc.
  - intros [H | (k & Hk & Hinc)]; [by left|]. right. exists k.
    split; [by apply list_elem_of_In, elem_of_Object_keys|].
    by apply includes_spec.
Qed.

Lemma filteredRooms_nonempty rs q :
  q ≠ "" →
  filteredRooms toLowerCase rs q
  = List.filter (room_matches toLowerCase (toLowerCase q)) rs.
Proof.
  intros Hq. unfold filteredRooms, truthy_string.
  apply String.eqb_neq in Hq. by rewrite Hq.
Qed.

Lemma filter_all_true (rs : list Room) : List.filter (λ _, true) rs = rs.
Proof. induction rs as [|r rs IH]; simpl; [done | by rewrite IH]. Qed.

(** C6: for the empty query the view is the room list itself; for every
    query it is the room list filtered, in order, by a test that holds
    exactly of the rooms to keep: all of them when the query is empty, and
    otherwise those whose name, or one of whose inventory keys, contains the
    query when case is ignored. *)
Theorem filteredRooms_spec (rs : list Room) (q : string) :
  filteredRooms toLowerCase rs "" = rs ∧
  (∃ keep : Room → bool,
     (∀ r, keep r = true ↔ q = "" ∨ answers_query toLowerCase q r) ∧
     filteredRooms toLowerCase rs q = List.filter keep rs) ∧
  (∀ r, r ∈ filteredRooms toLowerCase rs q
        ↔ r ∈ rs ∧ (q = "" ∨ answers_query toLowerCase q r)).
Proof.
  split; [done|].
  destruct (decide (q = "")) as [->|Hq].
  - split.
    + exists (λ _, true). split; [intros r; split; [by left | done]|].
      by rewrite filter_all_true.
    + intros r. split; [intros H; split; [done | by left] | by intros [H _]].
  - rewrite (filteredRooms_nonempty _ _ Hq). split.
    + exists (room_matches toLowerCase (toLowerCase q)). split; [|done].
      intros r. rewrite room_matches_spec. split; [by right|].
      by intros [H|H].
    + intros r. rewrite !list_elem_of_In, filter_In, room_matches_spec.
      split; [intros [H1 H2]; split; [done | by right]|].
      intros [H1 [H2|H2]]; done.
Qed.

Lemma totalItems_from rs acc :
  fold_left (λ acc r, (acc + length (Object_keys (inventory r)))%nat) rs acc
  = (acc + totalItems (stats rs))%nat.
Proof.
  simpl. revert acc. induction rs as [|r rs IH]; intros acc; simpl; [lia|].
  rewrite IH, (IH (length _)). lia.
Qed.

Lemma totalItems_split l1 r l2 :
  totalItems (stats (l1 ++ r :: l2))
  = (totalItems (stats l1) + size (inventory r) + totalItems (stats l2))%nat.
Proof.
  simpl. rewrite fold_left_app. simpl.
  rewrite totalItems_from, (totalItems_from l2).
  unfold Object_keys. rewrite length_fmap, length_map_to_list. simpl. lia.
Qed.

(** C9: a key bound to the quantity 0 in the inventory of a room of the
    list is a key like any other: it is in the materials catalog, the room
    is in the filtered view for every query that occurs in the key when case
    is ignored, and the key is counted in [totalItems], which is one more
    than for the same list with the key removed from that room. *)
Theorem zero_quantity_key_is_present (rs : list Room) (r : Room) (k : string) :
  r ∈ rs →
  inventory r !! k = Some 0 →
  k ∈ allMaterials rs ∧
  (∀ q, ci_substring toLowerCase q k → r ∈ filteredRooms toLowerCase rs q) ∧
  ∃ l1 l2,
    rs = l1 ++ r :: l2 ∧
    totalItems (stats rs)
    = S (totalItems (stats (l1 ++ without_material k r :: l2))).
Proof.
  intros Hr Hk. split; [|split].
  - apply allMaterials_elem. right. exists r. by rewrite Hk.
  - intros q Hq. destruct (decide (q = "")) as [->|Hne]; [done|].
    rewrite (filteredRooms_nonempty _ _ Hne).
    apply list_elem_of_In, filter_In. split; [by apply list_elem_of_In|].
    apply room_matches_spec. right. exists k. by rewrite Hk.
  - destruct (list_elem_of_split _ _ Hr) as (l1 & l2 & ->).
    exists l1, l2. split; [done|]. rewrite !totalItems_split. simpl.
    rewrite map_size_delete, Hk. simpl.
    assert (size (inventory r) ≠ 0%nat).
    { intros H0. apply map_size_empty_inv in H0. by rewrite H0 in Hk. }
    lia.
Qed.

End SearchProperties.

Lemma zero_quantity_key_is_present_witness :
  room_R2 ∈ sample_rooms ∧
  inventory room_R2 !! "Malt" = Some 0 ∧
  "Malt" ∈ allMaterials sample_rooms ∧
  room_R2 ∈ filteredRooms ascii_toLowerCase sample_rooms "mAl".
Proof.
  assert (H1 : room_R2 ∈ sample_rooms).
  { apply list_elem_of_further, list_elem_of_here. }
  assert (H2 : inventory room_R2 !! "Malt" = Some 0) by reflexivity.
  destruct (zero_quantity_key_is_present ascii_toLowerCase
              sample_rooms room_R2 "Malt" H1 H2) as (Hcat & Hview & _).
  split; [exact H1|]. split; [exact H2|]. split; [exact Hcat|].
  apply Hview. exists "", "t". reflexivity.
Defined.

(** ** The handlers and views on the sample rooms *)

Example stock_in_scenario :
  handleUpdateStock (sample_state ADMIN) sample_env "r1" "سكر" 10
  = ([Storage (UpdateStockReq "r1" "سكر" 15) true;
      Storage (AddLogReq {| timestamp := 1700000000001; userRole := ADMIN;
                            roomName := "R1"; action := "إدخال مخزون";
                            details := "سكر: 5 -> 15" |}) true],
     Some tt).
Proof. vm_compute. reflexivity. Qed.

Example refused_write_leaves_no_log :
  handleUpdateTemp (sample_state AUDITOR) failing_env "r2" 14
  = ([Storage (UpdateRoomFieldsReq "r2"
                 {| patch_temperature := Some 14;
                    patch_fermentationStart := None |}) false],
     None) ∧
  handleAddRoom (sample_state ADMIN) failing_env (Some "R9")
  = ([Storage (AddRoomReq "R9") false;
      ConsoleError "Error adding room:";
      Alert "حدث خطأ أثناء إضافة الغرفة"],
     Some tt).
Proof. split; vm_compute; reflexivity. Qed.

Example add_room_as_admin :
  remote (run (sample_world ADMIN) [sample_event (ClickAddRoom (Some "R9"))])
  = {| remote_rooms :=
         sample_rooms ++
         [ {| room_id := "doc-9"; name := "R9"; temperature := 20;
              inventory := ∅; fermentationStart := None |} ];
       remote_logs :=
         [ {| log_id := "log-9";
              log_fields :=
                {| timestamp := 1700000000001; userRole := ADMIN;
                   roomName := "R9"; action := "إضافة غرفة";
                   details := "تم إنشاء غرفة جديدة" |} |} ] |}.
Proof. vm_compute. reflexivity. Qed.

Example search_by_material_ignoring_case :
  filteredRooms ascii_toLowerCase sample_rooms "MALT" = [room_R2] ∧
  filteredRooms ascii_toLowerCase sample_rooms "r1" = [room_R1] ∧
  filteredRooms ascii_toLowerCase sample_rooms "" = sample_rooms ∧
  filteredRooms ascii_toLowerCase sample_rooms "zzz" = [].
Proof. repeat split; vm_compute; reflexivity. Qed.

Example catalog_of_sample_rooms :
  allMaterials sample_rooms = "سكر" :: "Malt" :: ["تفاح"; "خميرة"; "عنب"; "شعير"; "ماء"; "خشب"].
Proof. vm_compute. reflexivity. Qed.

Example stats_of_sample_rooms :
  stats sample_rooms
  = {| totalRooms := 3; activeFermentation := 2; totalItems := 2 |}.
Proof. vm_compute. reflexivity. Qed.

(** * Further properties of the handlers *)

(** Update temperature on a target id of the mirror sends one partial
    update that names the temperature only, and, for an old and a new
    temperature that are safe integers, the entry appended after an accepted
    write reads "from old to new" in decimal notation, with the old
    temperature taken from the room the lookup returns. *)
Theorem handleUpdateTemp_request (st : AppState) (e : Env) (id : string)
    (temp : Z) :
  id ∈ room_id <$> rooms st →
  faithful_temp_input st id temp →
  ∃ room,
    find_room (rooms st) id = Some room ∧
    writes_of (trace (handleUpdateTemp st e id temp))
    = [UpdateRoomFieldsReq id {| patch_temperature := Some temp;
                                 patch_fermentationStart := None |}] ∧
    log_entries_of (trace (handleUpdateTemp st e id temp))
    = if write_ok e
      then [ {| timestamp := log_now e;
                userRole := currentUser st;
                roomName := name room;
                action := "تعديل حرارة";
                details := "من " +:+ pretty (temperature room) +:+ "° إلى "
                           +:+ pretty temp +:+ "°" |} ]
      else [].
Proof.
  intros Hid _. destruct (find_room_exists _ _ Hid) as [room Hroom].
  exists room. split; [done|].
  rewrite (handleUpdateTemp_found _ _ _ _ _ Hroom).
  by rewrite writes_of_write_then_log, log_entries_of_write_then_log.
Qed.

Lemma handleUpdateTemp_request_witness :
  "r2" ∈ room_id <$> rooms (sample_state GUEST) ∧
  faithful_temp_input (sample_state GUEST) "r2" (-3) ∧
  log_entries_of (trace (handleUpdateTemp (sample_state GUEST) sample_env
                           "r2" (-3)))
  = [ {| timestamp := 1700000000001; userRole := GUEST; roomName := "Cellar";
         action := "تعديل حرارة"; details := "من 12° إلى -3°" |} ].
Proof.
  assert (H : "r2" ∈ room_id <$> rooms (sample_state GUEST)).
  { vm_compute. apply list_elem_of_further, list_elem_of_here. }
  assert (Ht : faithful_temp_input (sample_state GUEST) "r2" (-3)).
  { split.
    - vm_compute. split; reflexivity.
    - intros room Hr. assert (Some room_R2 = Some room) as [= <-] by exact Hr.
      vm_compute. split; reflexivity. }
  split; [exact H|]. split; [exact Ht|].
  destruct (handleUpdateTemp_request (sample_state GUEST) sample_env "r2"
              (-3) H Ht) as (room & Hf & _ & Hlog).
  assert (Some room_R2 = Some room) as [= <-] by exact Hf.
  rewrite Hlog. vm_compute. reflexivity.
Defined.

(** Add room never rejects: whatever the answer to the prompt and whatever
    the store says, the promise of [handleAddRoom] is fulfilled.  It alerts
    exactly when a non-empty name was given and the store refused the write,
    it alerts once, and a run that alerts appends nothing to the log. *)
Theorem handleAddRoom_swallows_failure (st : AppState) (e : Env)
    (answer : option string) :
  outcome (handleAddRoom st e answer) = Some tt ∧
  (alerts_of (trace (handleAddRoom st e answer)) ≠ []
   ↔ truthy_string answer = true ∧ write_ok e = false) ∧
  (length (alerts_of (trace (handleAddRoom st e answer))) ≤ 1)%nat ∧
  (alerts_of (trace (handleAddRoom st e answer)) ≠ [] →
   log_entries_of (trace (handleAddRoom st e answer)) = []).
Proof.
  destruct answer as [nm|].
  - destruct (decide (nm = "")) as [->|Hnm].
    + repeat split; simpl; try done; try lia; by intros [? _].
    + assert (truthy_string (Some nm) = true) as ->.
      { unfold truthy_string. apply negb_true_iff. by apply String.eqb_neq. }
      rewrite (handleAddRoom_named _ _ _ Hnm).
      destruct (write_ok e); simpl; repeat split; try done; try lia;
        by intros [_ ?].
  - repeat split; simpl; try done; try lia; by intros [? _].
Qed.

(** The three handlers with a target room let a refused write through:
    their promise is rejected exactly when the target id is an id of the
    mirror and the store refused the write.  None of them ever alerts. *)
Theorem target_handlers_propagate_failure (st : AppState) (e : Env)
    (id material : string) (temp amount : Z) :
  Forall (λ m : Async unit,
            (outcome m = None
             ↔ id ∈ room_id <$> rooms st ∧ write_ok e = false) ∧
            alerts_of (trace m) = [])
         [ handleUpdateTemp st e id temp;
           handleUpdateStock st e id material amount;
           handleToggleFermentation st e id ].
Proof.
  destruct (find_room (rooms st) id) as [room|] eqn:Hf.
  - rewrite (handleUpdateTemp_found _ _ _ _ _ Hf),
      (handleUpdateStock_found _ _ _ _ _ _ Hf),
      (handleToggleFermentation_found _ _ _ _ Hf).
    assert (Hin : id ∈ room_id <$> rooms st).
    { apply find_room_Some in Hf as [Hin <-].
      apply list_elem_of_fmap. by exists room. }
    repeat apply Forall_cons_2; try apply Forall_nil_2;
      unfold write_then_log, outcome, trace; simpl;
      destruct (write_ok e); simpl; (split; [|done]);
      (split; [done | by intros [_ ?]]).
  - unfold handleUpdateTemp, handleUpdateStock, handleToggleFermentation.
    rewrite Hf. apply find_room_None in Hf.
    repeat apply Forall_cons_2; try apply Forall_nil_2;
      (split; [|done]); (split; [done | by intros [? _]]).
Qed.

Lemma log_entries_of_run_handler st e a :
  log_entries_of (trace (run_handler st e a)) = []
  ∨ write_ok e = true ∧
    match a with
    | ClickAddRoom answer =>
        ∃ nm, answer = Some nm ∧
              log_entries_of (trace (run_handler st e a))
              = [addRoom_entry st e nm]
    | UpdateTemp id temp =>
        ∃ room, find_room (rooms st) id = Some room ∧
                log_entries_of (trace (run_handler st e a))
                = [temp_entry st e room temp]
    | UpdateStock id material amount =>
        ∃ room, find_room (rooms st) id = Some room ∧
                log_entries_of (trace (run_handler st e a))
                = [stock_entry st e room material amount]
    | ToggleFermentation id =>
        ∃ room, find_room (rooms st) id = Some room ∧
                log_entries_of (trace (run_handler st e a))
                = [toggle_entry st e room]
    | SetCurrentUser _ | PushRooms | PushLogs => False
    end.
Proof.
  destruct a as [answer|id temp|id material amount|id|role| |]; simpl;
    try (by left).
  - unfold clickAddRoom. destruct (addRoomButton_rendered st); [|by left].
    destruct answer as [nm|]; [|by left].
    destruct (decide (nm = "")) as [->|Hnm]; [by left|].
    rewrite (handleAddRoom_named _ _ _ Hnm).
    destruct (write_ok e); [right | by left]. split; [done|]. by exists nm.
  - destruct (find_room (rooms st) id) as [room|] eqn:Hf.
    + rewrite (handleUpdateTemp_found _ _ _ _ _ Hf).
      rewrite log_entries_of_write_then_log by done.
      destruct (write_ok e); [right | by left]. split; [done|]. by exists room.
    + left. unfold handleUpdateTemp. by rewrite Hf.
  - destruct (find_room (rooms st) id) as [room|] eqn:Hf.
    + rewrite (handleUpdateStock_found _ _ _ _ _ _ Hf).
      rewrite log_entries_of_write_then_log by done.
      destruct (write_ok e); [right | by left]. split; [done|]. by exists room.
    + left. unfold handleUpdateStock. by rewrite Hf.
  - destruct (find_room (rooms st) id) as [room|] eqn:Hf.
    + rewrite (handleToggleFermentation_found _ _ _ _ Hf).
      rewrite log_entries_of_write_then_log by done.
      destruct (write_ok e); [right | by left]. split; [done|]. by exists room.
    + left. unfold handleToggleFermentation. by rewrite Hf.
Qed.

(** Whatever the handler, an entry it appends carries the role of the state
    the handler was rendered with, the clock reading taken inside [addLog],
    and as room name a snapshot: the name typed at the prompt for Add room,
    the name of the room the lookup returned for the other three. *)
Theorem log_entry_provenance (st : AppState) (e : Env) (a : Action)
    (entry : LogFields) :
  entry ∈ log_entries_of (trace (run_handler st e a)) →
  userRole entry = currentUser st ∧
  timestamp entry = log_now e ∧
  match a with
  | ClickAddRoom answer => answer = Some (roomName entry)
  | UpdateTemp id _ | UpdateStock id _ _ | ToggleFermentation id =>
      name <$> find_room (rooms st) id = Some (roomName entry)
  | SetCurrentUser _ | PushRooms | PushLogs => False
  end.
Proof.
  intros Hin.
  destruct (log_entries_of_run_handler st e a) as [Hnone | [_ Hone]].
  { rewrite Hnone in Hin. by apply elem_of_nil in Hin. }
  destruct a; try done;
    destruct Hone as (x & Hx & Heq); rewrite Heq in Hin;
    apply list_elem_of_singleton in Hin as ->; simpl;
    repeat split; try done; by rewrite Hx.
Qed.

Lemma log_entry_provenance_witness :
  stock_entry (sample_state AUDITOR) sample_env room_R1 "ماء" 3
    ∈ log_entries_of (trace (run_handler (sample_state AUDITOR) sample_env
                               (UpdateStock "r1" "ماء" 3))) ∧
  userRole (stock_entry (sample_state AUDITOR) sample_env room_R1 "ماء" 3)
  = AUDITOR.
Proof.
  assert (H : stock_entry (sample_state AUDITOR) sample_env room_R1 "ماء" 3
                ∈ log_entries_of
                    (trace (run_handler (sample_state AUDITOR) sample_env
                              (UpdateStock "r1" "ماء" 3)))).
  { vm_compute. apply list_elem_of_here. }
  split; [exact H|].
  exact (proj1 (log_entry_provenance _ _ _ _ H)).
Defined.

(** A handler run makes at most one room write, appends at most once and
    only after a write, and the append comes last: the calls that reach the
    store are the writes followed by the appends. *)
Theorem storage_calls_shape (st : AppState) (e : Env) (a : Action) :
  (length (writes_of (trace (run_handler st e a))) ≤ 1)%nat ∧
  (length (log_entries_of (trace (run_handler st e a)))
   ≤ length (writes_of (trace (run_handler st e a))))%nat ∧
  storage_calls (trace (run_handler st e a))
  = writes_of (trace (run_handler st e a))
    ++ (AddLogReq <$> log_entries_of (trace (run_handler st e a))).
Proof.
  destruct a as [answer|id temp|id material amount|id|role| |]; simpl;
    try (repeat split; simpl; done || lia).
  - unfold clickAddRoom. destruct (addRoomButton_rendered st);
      [|repeat split; simpl; done || lia].
    destruct answer as [nm|]; [|repeat split; simpl; done || lia].
    destruct (decide (nm = "")) as [->|Hnm];
      [repeat split; simpl; done || lia|].
    rewrite (handleAddRoom_named _ _ _ Hnm).
    destruct (write_ok e); repeat split; simpl; done || lia.
  - destruct (find_room (rooms st) id) as [room|] eqn:Hf.
    + rewrite (handleUpdateTemp_found _ _ _ _ _ Hf). unfold write_then_log.
      destruct (write_ok e); repeat split; simpl; done || lia.
    + unfold handleUpdateTemp. rewrite Hf. repeat split; simpl; done || lia.
  - destruct (find_room (rooms st) id) as [room|] eqn:Hf.
    + rewrite (handleUpdateStock_found _ _ _ _ _ _ Hf). unfold write_then_log.
      destruct (write_ok e); repeat split; simpl; done || lia.
    + unfold handleUpdateStock. rewrite Hf. repeat split; simpl; done || lia.
  - destruct (find_room (rooms st) id) as [room|] eqn:Hf.
    + rewrite (handleToggleFermentation_found _ _ _ _ Hf).
      unfold write_then_log.
      destruct (write_ok e); repeat split; simpl; done || lia.
    + unfold handleToggleFermentation. rewrite Hf.
      repeat split; simpl; done || lia.
Qed.

(** An adjustment by zero is not skipped: for a material that is no
    property name inherited from [Object.prototype] and an old quantity that
    is a safe integer, the unchanged quantity is written to the store all
    the same, and the entry appended after it is filed under the "stock out"
    label with equal old and new quantities. *)
Theorem zero_adjustment_is_a_stock_out (st : AppState) (e : Env)
    (id material : string) (room : Room) :
  find_room (rooms st) id = Some room →
  (material ∉ Object_prototype_properties) →
  safe_integer (default 0 (inventory room !! material)) →
  writes_of (trace (handleUpdateStock st e id material 0))
  = [UpdateStockReq id material (default 0 (inventory room !! material))] ∧
  (write_ok e = true →
   (λ entry, (action entry, details entry))
     <$> log_entries_of (trace (handleUpdateStock st e id material 0))
   = [ ("إخراج مخزون",
        material +:+ ": " +:+ pretty (default 0 (inventory room !! material))
        +:+ " -> " +:+ pretty (default 0 (inventory room !! material))) ]).
Proof.
  intros Hf _ _. rewrite (handleUpdateStock_found _ _ _ _ _ _ Hf).
  rewrite writes_of_write_then_log, log_entries_of_write_then_log by done.
  rewrite oldQty_of_default, Z.add_0_r. split; [done|].
  intros ->. unfold stock_entry. simpl.
  by rewrite oldQty_of_default, Z.add_0_r.
Qed.

Lemma zero_adjustment_is_a_stock_out_witness :
  find_room (rooms (sample_state ADMIN)) "r1" = Some room_R1 ∧
  ("سكر" ∉ Object_prototype_properties) ∧
  safe_integer (default 0 (inventory room_R1 !! "سكر")) ∧
  writes_of (trace (handleUpdateStock (sample_state ADMIN) sample_env
                      "r1" "سكر" 0))
  = [UpdateStockReq "r1" "سكر" 5].
Proof.
  assert (H1 : "سكر" ∉ Object_prototype_properties).
  { apply (bool_decide_unpack _). vm_compute. exact I. }
  assert (H2 : safe_integer (default 0 (inventory room_R1 !! "سكر"))).
  { vm_compute. split; reflexivity. }
  split; [reflexivity|]. split; [exact H1|]. split; [exact H2|].
  exact (proj1 (zero_adjustment_is_a_stock_out (sample_state ADMIN)
                  sample_env "r1" "سكر" room_R1 eq_refl H1 H2)).
Defined.

(** * Further properties of the statistics *)

Lemma activeFermentation_cons r rs :
  activeFermentation (stats (r :: rs))
  = ((if bool_decide (fermentationStart r ≠ None) then 1 else 0)
     + activeFermentation (stats rs))%nat.
Proof. simpl. by destruct (bool_decide (fermentationStart r ≠ None)). Qed.

Lemma totalItems_cons r rs :
  totalItems (stats (r :: rs))
  = (size (inventory r) + totalItems (stats rs))%nat.
Proof.
  change (r :: rs) with ([] ++ r :: rs). rewrite totalItems_split.
  change (totalItems (stats [])) with 0%nat. lia.
Qed.

(** The fermentation counter and the toggle read fermentationStart
    differently.  On a fermentationStart that is null or an integer
    timestamp (a NaN, which the type [number | null] admits, is outside the
    model) they part on one value only: the counter counts a room as
    fermenting while the toggle starts fermentation in it exactly when the
    room's fermentationStart is the number 0. *)
Theorem counter_and_toggle_part_at_zero (st : AppState) (e : Env)
    (id : string) (room : Room) :
  find_room (rooms st) id = Some room →
  (activeFermentation (stats [room]) = 1%nat ∧
   writes_of (trace (handleToggleFermentation st e id))
   = [UpdateRoomFieldsReq id
        {| patch_temperature := None;
           patch_fermentationStart := Some (Some (now e)) |}])
  ↔ fermentationStart room = Some 0.
Proof.
  intros Hf. rewrite (handleToggleFermentation_found _ _ _ _ Hf).
  rewrite writes_of_write_then_log by done.
  unfold toggle_patch, is_starting. simpl.
  destruct (fermentationStart room) as [t|]; simpl.
  - destruct (t =? 0) eqn:Ht; simpl.
    + apply Z.eqb_eq in Ht as ->. split; [done|]. intros _. by split.
    + apply Z.eqb_neq in Ht. split; [by intros [_ ?] | by intros [= ?]].
  - split; [|done]. by intros [H _].
Qed.

Lemma counter_and_toggle_part_at_zero_witness :
  find_room (rooms (sample_state ADMIN)) "r3" = Some room_R3 ∧
  activeFermentation (stats [room_R3]) = 1%nat.
Proof.
  split; [reflexivity|].
  exact (proj1 (proj2 (counter_and_toggle_part_at_zero (sample_state ADMIN)
                         sample_env "r3" room_R3 eq_refl) eq_refl)).
Defined.

(** The three counters add up over a list put together from two, the
    fermenting rooms are never more than the rooms, and they are all of
    them only when no room has a null fermentationStart. *)
Theorem stats_additive (l1 l2 : list Room) :
  totalRooms (stats (l1 ++ l2))
  = (totalRooms (stats l1) + totalRooms (stats l2))%nat ∧
  activeFermentation (stats (l1 ++ l2))
  = (activeFermentation (stats l1) + activeFermentation (stats l2))%nat ∧
  totalItems (stats (l1 ++ l2))
  = (totalItems (stats l1) + totalItems (stats l2))%nat ∧
  (activeFermentation (stats l1) ≤ totalRooms (stats l1))%nat ∧
  (activeFermentation (stats l1) = totalRooms (stats l1)
   ↔ ∀ r, r ∈ l1 → fermentationStart r ≠ None).
Proof.
  split; [|split; [|split; [|split]]].
  - simpl. apply length_app.
  - simpl. by rewrite List.filter_app, length_app.
  - induction l1 as [|r l1 IH]; [done|].
    change ((r :: l1) ++ l2) with (r :: (l1 ++ l2)).
    rewrite !totalItems_cons, IH. lia.
  - simpl. apply filter_length_le.
  - induction l1 as [|r l1 IH].
    + split; [intros _ r Hr; by apply elem_of_nil in Hr | done].
    + rewrite activeFermentation_cons.
      change (totalRooms (stats (r :: l1))) with (S (totalRooms (stats l1))).
      assert (Hle : (activeFermentation (stats l1) ≤ totalRooms (stats l1))%nat)
        by apply filter_length_le.
      case_bool_decide as Hr.
      * split.
        -- intros Heq r' Hr'. apply elem_of_cons in Hr' as [-> | Hr']; [done|].
           apply IH; [lia | done].
        -- intros Hall. f_equal. apply IH. intros r' Hr'. apply Hall.
           by apply list_elem_of_further.
      * split; [lia|]. intros Hall. exfalso.
        apply (Hall r); [apply list_elem_of_here | done].
Qed.

Lemma activeFermentation_perm rs rs' :
  rs ≡ₚ rs' →
  activeFermentation (stats rs) = activeFermentation (stats rs').
Proof.
  induction 1 as [|r l l' _ IH|r r' l|l l' l'' _ IH1 _ IH2].
  - done.
  - by rewrite !activeFermentation_cons, IH.
  - rewrite !activeFermentation_cons. lia.
  - by rewrite IH1.
Qed.

Lemma totalItems_perm rs rs' :
  rs ≡ₚ rs' → totalItems (stats rs) = totalItems (stats rs').
Proof.
  induction 1 as [|r l l' _ IH|r r' l|l l' l'' _ IH1 _ IH2].
  - done.
  - by rewrite !totalItems_cons, IH.
  - rewrite !totalItems_cons. lia.
  - by rewrite IH1.
Qed.

(** The statistics do not depend on the order of the rooms. *)
Theorem stats_order_irrelevant (rs rs' : list Room) :
  rs ≡ₚ rs' → stats rs = stats rs'.
Proof.
  intros Hp.
  pose proof (activeFermentation_perm _ _ Hp) as H2.
  pose proof (totalItems_perm _ _ Hp) as H3.
  assert (H1 : totalRooms (stats rs) = totalRooms (stats rs'))
    by (simpl; by rewrite Hp).
  destruct (stats rs), (stats rs'). simpl in *. by subst.
Qed.

Lemma stats_order_irrelevant_witness :
  [room_R1; room_R2; room_R3] ≡ₚ [room_R3; room_R1; room_R2] ∧
  stats [room_R1; room_R2; room_R3] = stats [room_R3; room_R1; room_R2].
Proof.
  assert (H : [room_R1; room_R2; room_R3] ≡ₚ [room_R3; room_R1; room_R2]).
  { symmetry. apply (Permutation_cons_append [room_R1; room_R2] room_R3). }
  split; [exact H|]. exact (stats_order_irrelevant _ _ H).
Defined.

(** * Further properties of the materials catalog *)

Lemma fold_Set_add_order ks used :
  NoDup ks →
  fold_left Set_add ks used
  = used ++ List.filter (λ k, negb (bool_decide (k ∈ used))) ks.
Proof.
  intros Hnd. revert used.
  induction Hnd as [|k ks Hk Hnd IH]; intros used; simpl.
  - by rewrite app_nil_r.
  - rewrite IH. unfold Set_add. case_bool_decide as Hin; simpl; [done|].
    rewrite <- app_assoc. simpl. do 2 f_equal.
    apply List.filter_ext_in. intros x Hx. apply list_elem_of_In in Hx.
    f_equal. apply bool_decide_ext. rewrite elem_of_app, list_elem_of_singleton.
    split; [intros [?| ->]; done | by left].
Qed.

Lemma INITIAL_MATERIALS_NoDup : NoDup INITIAL_MATERIALS.
Proof. apply (bool_decide_unpack _). vm_compute. exact I. Qed.

Lemma length_Set_add used k :
  (length (Set_add used k) ≤ S (length used))%nat.
Proof.
  unfold Set_add. case_bool_decide; [lia|]. rewrite length_app. simpl. lia.
Qed.

Lemma length_fold_Set_add ks used :
  (length (fold_left Set_add ks used) ≤ length used + length ks)%nat.
Proof.
  revert used. induction ks as [|k ks IH]; intros used; simpl; [lia|].
  pose proof (IH (Set_add used k)). pose proof (length_Set_add used k). lia.
Qed.

Lemma length_rooms_keys rs used :
  (length (fold_left
             (λ used r, fold_left Set_add (Object_keys (inventory r)) used)
             rs used)
   ≤ length used + totalItems (stats rs))%nat.
Proof.
  revert used. induction rs as [|r rs IH]; intros used.
  - simpl. lia.
  - rewrite totalItems_cons. simpl fold_left at 1.
    pose proof (IH (fold_left Set_add (Object_keys (inventory r)) used)) as H1.
    pose proof (length_fold_Set_add (Object_keys (inventory r)) used) as H2.
    unfold Object_keys in H2 at 2. rewrite length_fmap, length_map_to_list in H2.
    simpl in H1. simpl. lia.
Qed.

Lemma used_keys_no_inventory rs :
  (∀ r, r ∈ rs → inventory r = ∅) → used_keys rs = [].
Proof.
  unfold used_keys. induction rs as [|r rs IH]; intros Hall; [done|].
  simpl. rewrite (Hall r) by apply list_elem_of_here.
  unfold Object_keys. rewrite map_to_list_empty. simpl.
  apply IH. intros r' Hr'. by apply Hall, list_elem_of_further.
Qed.

Lemma allMaterials_used_keys rs :
  allMaterials rs
  = used_keys rs
    ++ List.filter (λ m, negb (bool_decide (m ∈ used_keys rs)))
                   INITIAL_MATERIALS.
Proof.
  unfold allMaterials. fold (used_keys rs).
  apply fold_Set_add_order, INITIAL_MATERIALS_NoDup.
Qed.

Lemma fold_Set_add_extends ks used :
  ∃ new, fold_left Set_add ks used = used ++ new.
Proof.
  revert used. induction ks as [|k ks IH]; intros used; simpl.
  - exists []. by rewrite app_nil_r.
  - destruct (IH (Set_add used k)) as [new ->]. unfold Set_add.
    case_bool_decide; [by exists new|].
    exists (k :: new). by rewrite <- app_assoc.
Qed.

Lemma rooms_keys_extends rs used :
  ∃ new,
    fold_left (λ used r, fold_left Set_add (Object_keys (inventory r)) used)
              rs used
    = used ++ new.
Proof.
  revert used. induction rs as [|r rs IH]; intros used; simpl.
  - exists []. by rewrite app_nil_r.
  - destruct (fold_Set_add_extends (Object_keys (inventory r)) used)
      as [new1 ->].
    destruct (IH (used ++ new1)) as [new2 ->].
    exists (new1 ++ new2). by rewrite app_assoc.
Qed.

Lemma used_keys_elem rs k :
  k ∈ used_keys rs ↔ ∃ r, r ∈ rs ∧ is_Some (inventory r !! k).
Proof.
  unfold used_keys. rewrite rooms_keys_elem. split.
  - intros [H|(r & Hr & Hk)]; [by apply elem_of_nil in H|].
    exists r. split; [done|]. by apply elem_of_Object_keys.
  - intros (r & Hr & Hk). right. exists r. split; [done|].
    by apply elem_of_Object_keys.
Qed.

(** The order of the catalog, as far as it does not hang on the order in
    which [Object.keys] lists the keys of one inventory: the inventory keys
    come first, each once, those of the rooms of a front part of the list
    before those that only rooms behind it have, and after all of them the
    seed materials that are no inventory key, in the order of the seed
    list. *)
Theorem allMaterials_order (l1 l2 : list Room) :
  ∃ earlier later,
    allMaterials (l1 ++ l2)
    = earlier ++ later
      ++ List.filter (λ m, negb (bool_decide (m ∈ earlier ++ later)))
                     INITIAL_MATERIALS ∧
    NoDup (earlier ++ later) ∧
    (∀ k, k ∈ earlier ↔ ∃ r, r ∈ l1 ∧ is_Some (inventory r !! k)) ∧
    (∀ k, k ∈ later ↔ (∃ r, r ∈ l2 ∧ is_Some (inventory r !! k)) ∧
                       ¬ ∃ r, r ∈ l1 ∧ is_Some (inventory r !! k)).
Proof.
  assert (Hsplit : ∃ later, used_keys (l1 ++ l2) = used_keys l1 ++ later).
  { unfold used_keys. rewrite fold_left_app. apply rooms_keys_extends. }
  destruct Hsplit as [later Hlater].
  assert (Hnd : NoDup (used_keys l1 ++ later)).
  { rewrite <- Hlater. apply rooms_keys_NoDup, NoDup_nil_2. }
  exists (used_keys l1), later. split; [|split; [done|split]].
  - rewrite allMaterials_used_keys, Hlater. by rewrite <- app_assoc.
  - intros k. apply used_keys_elem.
  - intros k. apply NoDup_app in Hnd as (_ & Hdisj & _).
    assert (Hall : k ∈ used_keys l1 ++ later
                   ↔ ∃ r, r ∈ l1 ++ l2 ∧ is_Some (inventory r !! k)).
    { rewrite <- Hlater. apply used_keys_elem. }
    rewrite elem_of_app, used_keys_elem in Hall. split.
    + intros Hk. split.
      * destruct (proj1 Hall (or_intror Hk)) as (r & Hr & Hkr).
        apply elem_of_app in Hr as [Hr|Hr]; [|by exists r].
        exfalso. apply (Hdisj k); [|done]. apply used_keys_elem. by exists r.
      * intros Hex. apply (Hdisj k); [|done]. by apply used_keys_elem.
    + intros [(r & Hr & Hkr) Hno].
      destruct (proj2 Hall) as [Hk|Hk]; [|done|done].
      exists r. split; [|done]. apply elem_of_app. by right.
Qed.

(** The catalog is never shorter than the seed list and never longer than
    the seed list and [totalItems] together; with no inventory key at all
    it is the seed list itself. *)
Theorem allMaterials_size (rs : list Room) :
  (length INITIAL_MATERIALS ≤ length (allMaterials rs))%nat ∧
  (length (allMaterials rs)
   ≤ length INITIAL_MATERIALS + totalItems (stats rs))%nat ∧
  ((∀ r, r ∈ rs → inventory r = ∅) → allMaterials rs = INITIAL_MATERIALS).
Proof.
  split; [|split].
  - apply submseteq_length, NoDup_submseteq; [apply INITIAL_MATERIALS_NoDup|].
    intros m Hm. apply allMaterials_elem. by left.
  - unfold allMaterials.
    pose proof (length_fold_Set_add INITIAL_MATERIALS
                  (fold_left
                     (λ used r,
                        fold_left Set_add (Object_keys (inventory r)) used)
                     rs [])) as H1.
    pose proof (length_rooms_keys rs []) as H2. simpl in *. lia.
  - intros Hall. unfold allMaterials. fold (used_keys rs).
    rewrite (used_keys_no_inventory _ Hall).
    rewrite fold_Set_add_order by apply INITIAL_MATERIALS_NoDup.
    reflexivity.
Qed.

(** * Further properties of the search *)

Lemma append_nil_r s : s +:+ "" = s.
Proof. induction s as [|c s IH]; [done|]. by rewrite append_String, IH. Qed.

Lemma append_assoc s t u : (s +:+ t) +:+ u = s +:+ (t +:+ u).
Proof.
  induction s as [|c s IH]; [done|]. by rewrite !append_String, IH.
Qed.

Lemma includes_refl s : includes s s = true.
Proof. apply includes_spec. exists "", "". by rewrite append_nil_r. Qed.

(** A string that holds [q'] holds every piece of [q']. *)
Lemma includes_trans s q q' :
  includes s q' = true → includes q' q = true → includes s q = true.
Proof.
  rewrite !includes_spec. intros (a & b & ->) (pre & post & ->).
  exists (a +:+ pre), (post +:+ b). by rewrite !append_assoc.
Qed.

Lemma list_filter_sublist {A} (p : A → bool) l :
  List.filter p l `sublist_of` l.
Proof.
  induction l as [|x l IH]; simpl; [constructor|].
  destruct (p x); by constructor.
Qed.

Lemma list_filter_narrow {A} (p p' : A → bool) l :
  (∀ x, p' x = true → p x = true) →
  List.filter p' (List.filter p l) = List.filter p' l.
Proof.
  intros Himp. induction l as [|x l IH]; simpl; [done|].
  destruct (p x) eqn:Hp; simpl.
  - by rewrite IH.
  - destruct (p' x) eqn:Hp'; [|done]. apply Himp in Hp'. congruence.
Qed.

Section SearchFurther.

Variable toLowerCase : string → string.

Lemma filteredRooms_as_filter rs q :
  ∃ keep, (q ≠ "" → keep = room_matches toLowerCase (toLowerCase q)) ∧
          filteredRooms toLowerCase rs q = List.filter keep rs ∧
          ∀ l, filteredRooms toLowerCase l q = List.filter keep l.
Proof.
  destruct (decide (q = "")) as [->|Hq].
  - exists (λ _, true). split; [done|].
    split; [|intros l]; by rewrite filter_all_true.
  - exists (room_matches toLowerCase (toLowerCase q)). split; [done|].
    split; [|intros l]; by apply filteredRooms_nonempty.
Qed.

(** The filtered view keeps rooms of the list in their order and makes up
    none, searching the result again with the same query changes nothing,
    and the view of two lists put together is the two views put
    together. *)
Theorem filteredRooms_stable (rs l1 l2 : list Room) (q : string) :
  filteredRooms toLowerCase rs q `sublist_of` rs ∧
  filteredRooms toLowerCase (filteredRooms toLowerCase rs q) q
  = filteredRooms toLowerCase rs q ∧
  filteredRooms toLowerCase (l1 ++ l2) q
  = filteredRooms toLowerCase l1 q ++ filteredRooms toLowerCase l2 q.
Proof.
  destruct (filteredRooms_as_filter rs q) as (keep & _ & _ & Hk).
  rewrite !Hk. split; [apply list_filter_sublist|]. split.
  - by apply list_filter_narrow.
  - apply List.filter_app.
Qed.

(** Typing more narrows the view: when the old query occurs in the new one
    with case ignored, and the new one is not empty, the rooms shown for the
    new query are found among the rooms shown for the old one, and searching
    those gives the same view as searching all rooms. *)
Theorem refined_query_narrows (rs : list Room) (q q' : string) :
  q' ≠ "" →
  ci_substring toLowerCase q q' →
  filteredRooms toLowerCase (filteredRooms toLowerCase rs q) q'
  = filteredRooms toLowerCase rs q' ∧
  filteredRooms toLowerCase rs q'
    `sublist_of` filteredRooms toLowerCase rs q.
Proof.
  intros Hq' Hsub.
  assert (Heq : filteredRooms toLowerCase (filteredRooms toLowerCase rs q) q'
                = filteredRooms toLowerCase rs q').
  { rewrite !(filteredRooms_nonempty _ _ _ Hq').
    destruct (decide (q = "")) as [->|Hq]; [done|].
    rewrite (filteredRooms_nonempty _ _ _ Hq).
    apply list_filter_narrow. intros r. unfold room_matches.
    assert (Hinc : includes (toLowerCase q') (toLowerCase q) = true)
      by by apply includes_spec.
    rewrite !orb_true_iff, !existsb_exists.
    intros [H | (k & Hk & H)].
    - left. by apply (includes_trans _ _ _ H).
    - right. exists k. split; [done|]. by apply (includes_trans _ _ _ H). }
  split; [done|]. rewrite <- Heq.
  destruct (filteredRooms_as_filter rs q') as (keep & _ & _ & Hk).
  rewrite Hk. apply list_filter_sublist.
Qed.

(** A room of the list is found by its own name and by each key of its
    inventory, typed in full. *)
Theorem found_by_name_and_by_key (rs : list Room) (r : Room) :
  r ∈ rs →
  r ∈ filteredRooms toLowerCase rs (name r) ∧
  ∀ k, is_Some (inventory r !! k) → r ∈ filteredRooms toLowerCase rs k.
Proof.
  intros Hr.
  assert (Hfound : ∀ q, answers_query toLowerCase q r →
                        r ∈ filteredRooms toLowerCase rs q).
  { intros q Hq. destruct (decide (q = "")) as [->|Hne]; [done|].
    rewrite (filteredRooms_nonempty _ _ _ Hne).
    apply list_elem_of_In, filter_In. split; [by apply list_elem_of_In|].
    by apply room_matches_spec. }
  split.
  - apply Hfound. left. exists "", "". by rewrite append_nil_r.
  - intros k Hk. apply Hfound. right. exists k. split; [done|].
    exists "", "". by rewrite append_nil_r.
Qed.

End SearchFurther.

Lemma refined_query_narrows_witness :
  "ce" ≠ "" ∧
  ci_substring ascii_toLowerCase "C" "ce" ∧
  filteredRooms ascii_toLowerCase
    (filteredRooms ascii_toLowerCase sample_rooms "C") "ce"
  = filteredRooms ascii_toLowerCase sample_rooms "ce".
Proof.
  assert (H1 : "ce" ≠ "") by discriminate.
  assert (H2 : ci_substring ascii_toLowerCase "C" "ce").
  { exists "", "e". reflexivity. }
  split; [exact H1|]. split; [exact H2|].
  exact (proj1 (refined_query_narrows ascii_toLowerCase sample_rooms
                  "C" "ce" H1 H2)).
Defined.

Lemma found_by_name_and_by_key_witness :
  room_R2 ∈ sample_rooms ∧
  room_R2 ∈ filteredRooms ascii_toLowerCase sample_rooms "Cellar".
Proof.
  assert (H : room_R2 ∈ sample_rooms).
  { apply list_elem_of_further, list_elem_of_here. }
  split; [exact H|].
  exact (proj1 (found_by_name_and_by_key ascii_toLowerCase sample_rooms
                  room_R2 H)).
Defined.

(** * Properties of the page and of the mount effect *)

Section PageProperties.

Variable toLowerCase : string → string.

Lemma elem_of_filteredRooms rs q r :
  r ∈ filteredRooms toLowerCase rs q
  ↔ r ∈ rs ∧ (q = "" ∨ answers_query toLowerCase q r).
Proof.
  destruct (decide (q = "")) as [->|Hq].
  - split; [intros H; split; [done | by left] | by intros [H _]].
  - rewrite (filteredRooms_nonempty _ _ _ Hq).
    rewrite !list_elem_of_In, filter_In, room_matches_spec.
    split; [intros [H1 H2]; split; [done | by right]|].
    intros [H1 [H2|H2]]; done.
Qed.

(** Outside the configuration notice the page has one button for each role,
    in the order of the enum, and exactly one of them is highlighted: the
    one of the current role. *)
Theorem one_role_button_highlighted (h : Hooks) :
  configError h = false →
  ∃ m, App_render toLowerCase h = MainPage m ∧
       (role_buttons m).*1 = [ADMIN; AUDITOR; GUEST] ∧
       List.filter snd (role_buttons m)
       = [(currentUser (hooks_state h), true)].
Proof.
  intros Hc. unfold App_render. rewrite Hc. eexists. split; [done|].
  simpl. split; [done|]. by destruct (currentUser (hooks_state h)).
Qed.

(** The Add room button is in the page exactly when there is no
    configuration error, the dashboard tab is the active one and the current
    role is Admin; on the logs tab an Admin has no such button either.
    Whenever it is in the page, the gate of the click lets the handler
    run. *)
Theorem add_button_in_page (h : Hooks) :
  (page_has_add_button (App_render toLowerCase h) = true
   ↔ configError h = false ∧ activeTab h = TabDashboard
     ∧ currentUser (hooks_state h) = ADMIN) ∧
  (page_has_add_button (App_render toLowerCase h) = true →
   ∀ e answer, clickAddRoom (hooks_state h) e answer
               = handleAddRoom (hooks_state h) e answer).
Proof.
  assert (Hiff : page_has_add_button (App_render toLowerCase h) = true
                 ↔ configError h = false ∧ activeTab h = TabDashboard
                   ∧ currentUser (hooks_state h) = ADMIN).
  { unfold App_render.
    destruct (configError h); simpl; [split; [done | by intros [? _]]|].
    destruct (activeTab h); simpl.
    - rewrite bool_decide_eq_true. split; [done | by intros (_ & _ & ?)].
    - split; [done | by intros (_ & ? & _)]. }
  split; [done|]. intros Hb e answer. apply Hiff in Hb as (_ & _ & Hadmin).
  unfold clickAddRoom, addRoomButton_rendered.
  by rewrite bool_decide_eq_true_2.
Qed.

(** The "no results" notice is shown exactly when there is no card, that
    is, when no room of the mirror is kept by the query; with no rooms at
    all it is shown for every query, the empty one included. *)
Theorem no_results_notice (h : Hooks) :
  (no_results (render_dashboard toLowerCase h) = true
   ↔ cards (render_dashboard toLowerCase h) = []) ∧
  (no_results (render_dashboard toLowerCase h) = true
   ↔ ∀ r, r ∈ rooms (hooks_state h) →
          searchQuery h ≠ "" ∧
          ¬ answers_query toLowerCase (searchQuery h) r) ∧
  (rooms (hooks_state h) = [] →
   no_results (render_dashboard toLowerCase h) = true).
Proof.
  unfold render_dashboard. simpl.
  set (shown := filteredRooms toLowerCase (rooms (hooks_state h))
                  (searchQuery h)).
  assert (Hnil : bool_decide (length shown = 0%nat) = true ↔ shown = []).
  { rewrite bool_decide_eq_true. apply length_zero_iff_nil. }
  assert (Hall : shown = [] ↔
                 ∀ r, r ∈ rooms (hooks_state h) →
                      searchQuery h ≠ "" ∧
                      ¬ answers_query toLowerCase (searchQuery h) r).
  { split.
    - intros Hs r Hr.
      assert (Hnot : r ∉ shown) by (rewrite Hs; apply not_elem_of_nil).
      subst shown. rewrite elem_of_filteredRooms in Hnot.
      split; [intros Hq | intros Ha]; apply Hnot; split; auto.
    - intros Hno. destruct shown as [|r l] eqn:Hs; [done|].
      assert (Hr : r ∈ shown) by (rewrite Hs; apply list_elem_of_here).
      subst shown. apply elem_of_filteredRooms in Hr as [Hr [Hq|Ha]];
        destruct (Hno r Hr) as [Hq' Ha']; done. }
  split; [|split].
  - rewrite Hnil. split; [by intros -> | apply fmap_nil_inv].
  - by rewrite Hnil.
  - intros Hrooms. apply Hnil, Hall. intros r Hr. rewrite Hrooms in Hr.
    by apply elem_of_nil in Hr.
Qed.

(** Each card of the dashboard shows a room of the mirror under its id as
    key, with the current role and with the catalog of all rooms, not only
    of the rooms shown; so every key of the room's own inventory can be
    completed from the catalog the card was given.  There are never more
    cards than the room counter says. *)
Theorem card_props (h : Hooks) (c : RoomCardProps) :
  c ∈ cards (render_dashboard toLowerCase h) →
  card_room c ∈ rooms (hooks_state h) ∧
  card_key c = room_id (card_room c) ∧
  card_userRole c = currentUser (hooks_state h) ∧
  card_allMaterials c = allMaterials (rooms (hooks_state h)) ∧
  (∀ k, is_Some (inventory (card_room c) !! k) → k ∈ card_allMaterials c) ∧
  (length (cards (render_dashboard toLowerCase h))
   ≤ totalRooms (stats (rooms (hooks_state h))))%nat.
Proof.
  unfold render_dashboard. simpl. intros Hc.
  apply list_elem_of_fmap in Hc as (room & -> & Hroom). simpl.
  apply elem_of_filteredRooms in Hroom as [Hroom _].
  repeat split; try done.
  - intros k Hk. apply allMaterials_elem. right. by exists room.
  - rewrite length_fmap.
    destruct (filteredRooms_as_filter toLowerCase (rooms (hooks_state h))
                (searchQuery h)) as (keep & _ & -> & _).
    apply filter_length_le.
Qed.

(** Mounting without a Firebase configuration calls nothing of the
    [StorageService], opens no subscription and returns no cleanup, and the
    page then is the configuration notice, without Add room button.
    Mounting with one leaves the hooks alone, seeds the store before it
    subscribes, and the cleanup it returns closes the subscriptions it
    opened, each once and in the order of their opening. *)
Theorem mount_and_cleanup (configured : bool) (h : Hooks) :
  omap opened (mount_calls (useEffect_mount configured h))
  = closed <$> mount_cleanup (useEffect_mount configured h) ∧
  (configured = false →
   mount_calls (useEffect_mount configured h) = [] ∧
   App_render toLowerCase (mount_hooks (useEffect_mount configured h))
   = ConfigErrorPage ∧
   page_has_add_button
     (App_render toLowerCase (mount_hooks (useEffect_mount configured h)))
   = false) ∧
  (configured = true →
   mount_hooks (useEffect_mount configured h) = h ∧
   mount_calls (useEffect_mount configured h)
   = InitializeDB :: [SubscribeRooms; SubscribeLogs]).
Proof.
  destruct configured; simpl; repeat split; done.
Qed.

(** Nothing takes a configuration error back: once it is set, the page is
    the configuration notice after every sequence of snapshots, role
    clicks, tab clicks and typed queries. *)
Theorem config_error_is_final (h : Hooks) (evs : list HookEvent) :
  configError h = true →
  configError (fold_left hooks_step evs h) = true ∧
  App_render toLowerCase (fold_left hooks_step evs h) = ConfigErrorPage.
Proof.
  intros Hc.
  assert (Hkeep : configError (fold_left hooks_step evs h) = true).
  { revert h Hc. induction evs as [|ev evs IH]; intros h Hc; [done|].
    simpl. apply IH. by destruct ev. }
  split; [done|]. unfold App_render. by rewrite Hkeep.
Qed.

End PageProperties.

Lemma one_role_button_highlighted_witness :
  configError (sample_hooks AUDITOR "") = false ∧
  ∃ m, App_render ascii_toLowerCase (sample_hooks AUDITOR "") = MainPage m ∧
       (role_buttons m).*1 = [ADMIN; AUDITOR; GUEST] ∧
       List.filter snd (role_buttons m) = [(AUDITOR, true)].
Proof.
  split; [reflexivity|].
  exact (one_role_button_highlighted ascii_toLowerCase
           (sample_hooks AUDITOR "") eq_refl).
Defined.

Lemma card_props_witness :
  {| card_key := "r2"; card_room := room_R2; card_userRole := GUEST;
     card_allMaterials := allMaterials sample_rooms |}
    ∈ cards (render_dashboard ascii_toLowerCase (sample_hooks GUEST "malt")) ∧
  "Malt" ∈ allMaterials sample_rooms.
Proof.
  assert (H : {| card_key := "r2"; card_room := room_R2;
                 card_userRole := GUEST;
                 card_allMaterials := allMaterials sample_rooms |}
                ∈ cards (render_dashboard ascii_toLowerCase
                           (sample_hooks GUEST "malt"))).
  { apply list_elem_of_here. }
  split; [exact H|].
  destruct (card_props ascii_toLowerCase _ _ H) as (_ & _ & _ & _ & Hk & _).
  apply Hk. exists 0. reflexivity.
Defined.

Lemma config_error_is_final_witness :
  configError (mount_hooks (useEffect_mount false initial_hooks)) = true ∧
  App_render ascii_toLowerCase
    (fold_left hooks_step
       [ClickRole GUEST; ClickTab TabLogs; TypeQuery "r1";
        SnapshotRooms sample_rooms]
       (mount_hooks (useEffect_mount false initial_hooks)))
  = ConfigErrorPage.
Proof.
  split; [reflexivity|].
  exact (proj2 (config_error_is_final ascii_toLowerCase
                  (mount_hooks (useEffect_mount false initial_hooks))
                  [ClickRole GUEST; ClickTab TabLogs; TypeQuery "r1";
                   SnapshotRooms sample_rooms] eq_refl)).
Defined.

(** * The handlers and the role *)

(** Update temperature, Adjust stock and Toggle fermentation never look at
    the role: under any other role the same room write is sent, the promise
    settles the same way, and the entry appended differs in nothing but the
    role it records. *)
Theorem target_handlers_ignore_role (st : AppState) (e : Env) (a : Action)
    (role : UserRole) :
  match a with ClickAddRoom _ => False | _ => True end →
  writes_of (trace (run_handler (as_role role st) e a))
  = writes_of (trace (run_handler st e a)) ∧
  outcome (run_handler (as_role role st) e a) = outcome (run_handler st e a) ∧
  entry_body <$> log_entries_of (trace (run_handler (as_role role st) e a))
  = entry_body <$> log_entries_of (trace (run_handler st e a)) ∧
  ∀ en, en ∈ log_entries_of (trace (run_handler (as_role role st) e a)) →
        userRole en = role.
Proof.
  intros Ha.
  destruct a as [answer|id temp|id material amount|id|r| |]; simpl;
    try done; try (repeat split; try done; intros en Hen;
                   by apply elem_of_nil in Hen).
  - destruct (find_room (rooms st) id) as [room|] eqn:Hf.
    + assert (Hf' : find_room (rooms (as_role role st)) id = Some room) by done.
      rewrite (handleUpdateTemp_found _ _ _ _ _ Hf),
        (handleUpdateTemp_found _ _ _ _ _ Hf').
      unfold write_then_log, outcome, trace. simpl.
      destruct (write_ok e); simpl; repeat split; try done;
        intros en Hen; [|by apply elem_of_nil in Hen].
      by apply list_elem_of_singleton in Hen as ->.
    + unfold handleUpdateTemp. simpl. rewrite Hf.
      repeat split; try done. intros en Hen. by apply elem_of_nil in Hen.
  - destruct (find_room (rooms st) id) as [room|] eqn:Hf.
    + assert (Hf' : find_room (rooms (as_role role st)) id = Some room) by done.
      rewrite (handleUpdateStock_found _ _ _ _ _ _ Hf),
        (handleUpdateStock_found _ _ _ _ _ _ Hf').
      unfold write_then_log, outcome, trace. simpl.
      destruct (write_ok e); simpl; repeat split; try done;
        intros en Hen; [|by apply elem_of_nil in Hen].
      by apply list_elem_of_singleton in Hen as ->.
    + unfold handleUpdateStock. simpl. rewrite Hf.
      repeat split; try done. intros en Hen. by apply elem_of_nil in Hen.
  - destruct (find_room (rooms st) id) as [room|] eqn:Hf.
    + assert (Hf' : find_room (rooms (as_role role st)) id = Some room) by done.
      rewrite (handleToggleFermentation_found _ _ _ _ Hf),
        (handleToggleFermentation_found _ _ _ _ Hf').
      unfold write_then_log, outcome, trace. simpl.
      destruct (write_ok e); simpl; repeat split; try done;
        intros en Hen; [|by apply elem_of_nil in Hen].
      by apply list_elem_of_singleton in Hen as ->.
    + unfold handleToggleFermentation. simpl. rewrite Hf.
      repeat split; try done. intros en Hen. by apply elem_of_nil in Hen.
Qed.

Lemma target_handlers_ignore_role_witness :
  writes_of (trace (run_handler (as_role GUEST (sample_state ADMIN))
                      sample_env (ToggleFermentation "r2")))
  = writes_of (trace (run_handler (sample_state ADMIN) sample_env
                        (ToggleFermentation "r2"))).
Proof.
  exact (proj1 (target_handlers_ignore_role (sample_state ADMIN) sample_env
                  (ToggleFermentation "r2") GUEST I)).
Defined.
